(** * Modern Data Dashboard: the front end (frontend/scripts.js)

    A shallow embedding of the dashboard's client script: the module-level
    variables and the DOM nodes it reads and writes are one [State] record,
    every event handler is a computation in a small monad [Js] that threads
    that state, logs what the handler does to the outside world (alerts,
    HTTP requests, navigation) and can be rejected (an uncaught exception or
    a rejected promise).

    Modelling choices, once and for all:
    - JavaScript strings are [string]; [toLowerCase] is the ASCII one and the
      default [Array.prototype.sort] order is the code-unit order, which on
      ASCII is the byte order of [String.compare].
    - JSON numbers are integers ([Z]); on them [a - b] is exact.
    - [String.prototype.localeCompare] is host behaviour: it is a member of
      the class [Collator], with the two laws that make it a consistent
      comparator.
    - [Array.prototype.sort] is stable; with a consistent comparator its
      result is the unique stable ordering, computed here by insertion.
    - an [await] runs to completion before the next event is handled. *)

From Stdlib Require Import ZArith String Ascii List Permutation Sorted Lia.
From stdpp Require Import base decidable option list sorting strings pretty gmap.

Local Open Scope string_scope.
Local Open Scope Z_scope.

(** ** Strings *)

Definition lower_char (c : ascii) : ascii :=
  let n := nat_of_ascii c in
  if ((65 <=? n) && (n <=? 90))%nat then ascii_of_nat (n + 32) else c.

(** [s.toLowerCase()] *)
Fixpoint toLowerCase (s : string) : string :=
  match s with
  | EmptyString => EmptyString
  | String c s' => String (lower_char c) (toLowerCase s')
  end.

(** [s.includes(t)] *)
Fixpoint includes (s t : string) : bool :=
  String.prefix t s ||
  match s with
  | EmptyString => false
  | String _ s' => includes s' t
  end.

(** A string is falsy exactly when it is empty. *)
Definition truthy (s : string) : bool := negb (s =? "")%string.

(** The order of [sort()] without a comparator, as a comparator. *)
Definition default_compare (a b : string) : Z :=
  match String.compare a b with
  | Lt => -1
  | Eq => 0
  | Gt => 1
  end.

(** ** Host collation *)

Class Collator := {
  localeCompare : string → string → Z;
  localeCompare_total : ∀ a b, localeCompare a b ≤ 0 ∨ localeCompare b a ≤ 0;
  localeCompare_trans : ∀ a b c,
    localeCompare a b ≤ 0 → localeCompare b c ≤ 0 → localeCompare a c ≤ 0
}.

(** ** Array.prototype.sort *)

Section js_sort.
Context {A : Type} (cmp : A → A → Z).

Fixpoint sort_insert (x : A) (l : list A) : list A :=
  match l with
  | [] => [x]
  | y :: l' => if cmp x y <=? 0 then x :: y :: l' else y :: sort_insert x l'
  end.

Definition js_sort (l : list A) : list A := foldr sort_insert [] l.
End js_sort.

(** [l.slice(-n)] *)
Definition slice_last {A} (n : nat) (l : list A) : list A :=
  drop (length l - n)%nat l.

(** ** Rows *)

Record Row := mkRow {
  date : string;
  product : string;
  region : string;
  sales : Z;
  revenue : Z
}.

Inductive JsValue :=
| JsString (s : string)
| JsNumber (n : Z).

(** [String(v)] *)
Definition String_of (v : JsValue) : string :=
  match v with
  | JsString s => s
  | JsNumber n => pretty n
  end.

(** [Object.values(row)], in the order of the keys. *)
Definition Object_values (r : Row) : list JsValue :=
  [JsString (date r); JsString (product r); JsString (region r);
   JsNumber (sales r); JsNumber (revenue r)].

(** The keys of the table headers ([th.dataset.key]). *)
Inductive Field := FDate | FProduct | FRegion | FSales | FRevenue.

Definition key_name (k : Field) : string :=
  match k with
  | FDate => "date"
  | FProduct => "product"
  | FRegion => "region"
  | FSales => "sales"
  | FRevenue => "revenue"
  end.

(** [row[key]] *)
Definition get_field (k : Field) (r : Row) : JsValue :=
  match k with
  | FDate => JsString (date r)
  | FProduct => JsString (product r)
  | FRegion => JsString (region r)
  | FSales => JsNumber (sales r)
  | FRevenue => JsNumber (revenue r)
  end.

(** The cells of one table row, as [renderTable] writes them. *)
Definition tr (row : Row) : list string :=
  [date row; product row; region row; pretty (sales row);
   "$" +:+ pretty (revenue row)].

(** ** JSON bodies, requests and responses *)

(** A parsed JSON object, seen through the properties the script reads;
    [None] is [undefined]. *)
Record Obj := mkObj {
  data_token : option string;
  data_error : option string;
  total_sales : option Z;
  total_revenue : option Z;
  daily_sales : option (list (string * Z));
  sales_by_product : option (list (string * Z));
  sales_by_region : option (list (string * Z));
  table_data : option (list Row)
}.

Definition empty_obj : Obj := mkObj None None None None None None None None.

Inductive Json :=
| JObj (o : Obj)
| JArr (rows : list Row).

(** Property reads on an array find none of the properties above. *)
Definition as_obj (j : Json) : Obj :=
  match j with
  | JObj o => o
  | JArr _ => empty_obj
  end.

(** A URL before serialisation: [query = None] when no [?] is written. *)
Record Url := mkUrl {
  base : string;
  query : option (list (string * string))
}.

Record Chart := mkChart {
  chart_type : string;
  labels : list string;
  values : list Z;
  tickColor : option string
}.

Inductive ReqBody :=
| BodyCredentials (email password : string)
| BodyReport (charts : list (string * Chart)) (summary_sales summary_revenue : Z)
| BodySchedule (target_email : string) (region product start_date end_date : option string)
    (freq : string).

Record Request := mkRequest {
  method : string;
  url : Url;
  authorization : option string;
  body : option ReqBody
}.

(** [json = None]: the body does not parse as JSON. *)
Record Response := mkResponse {
  ok : bool;
  json : option Json
}.

Inductive Outcome :=
| NetworkFailure
| Respond (res : Response).

Inductive Event :=
| Alert (msg : string)
| Prompt (msg : string)
| Fetch (req : Request)
| Navigate (to : Url)
| Download (name : string).

Definition is_fetch (e : Event) : bool :=
  match e with
  | Fetch _ => true
  | _ => false
  end.

(** ** Constants *)

Definition API_BASE := "http://127.0.0.1:5000".
Definition STATS_URL := API_BASE +:+ "/api/stats".
Definition EXPORT_PDF := API_BASE +:+ "/api/export/pdf".
Definition SCHEDULE_URL := API_BASE +:+ "/api/schedule-email".
Definition LOGIN_URL := API_BASE +:+ "/api/login".
Definition REGISTER_URL := API_BASE +:+ "/api/register".
Definition DATA_URL := API_BASE +:+ "/api/data".

(** ** State: module variables, local storage and the DOM *)

Record Dom := mkDom {
  startDate : string;
  endDate : string;
  regionFilter : string;
  productFilter : string;
  timeFilter : string;
  authEmail : string;
  authPassword : string;
  schedTargetEmail : string;
  totalSales : Z;
  totalRevenue : Z;
  tbody : list (list string);
  modalHidden : bool;
  dark : bool
}.

Record State := mkState {
  dailySalesChart : option Chart;
  productChart : option Chart;
  regionChart : option Chart;
  currentData : option Obj;
  fullTableData : list Row;
  sortDirection : gmap string bool;
  token : option string;
  localStorage : gmap string string;
  dom : Dom
}.

Definition set_dates (s e : string) (d : Dom) : Dom :=
  mkDom s e (regionFilter d) (productFilter d) (timeFilter d) (authEmail d)
    (authPassword d) (schedTargetEmail d) (totalSales d) (totalRevenue d)
    (tbody d) (modalHidden d) (dark d).

Definition set_totals (ts tr : Z) (d : Dom) : Dom :=
  mkDom (startDate d) (endDate d) (regionFilter d) (productFilter d)
    (timeFilter d) (authEmail d) (authPassword d) (schedTargetEmail d) ts tr
    (tbody d) (modalHidden d) (dark d).

Definition set_tbody (rows : list (list string)) (d : Dom) : Dom :=
  mkDom (startDate d) (endDate d) (regionFilter d) (productFilter d)
    (timeFilter d) (authEmail d) (authPassword d) (schedTargetEmail d)
    (totalSales d) (totalRevenue d) rows (modalHidden d) (dark d).

Definition set_modalHidden (h : bool) (d : Dom) : Dom :=
  mkDom (startDate d) (endDate d) (regionFilter d) (productFilter d)
    (timeFilter d) (authEmail d) (authPassword d) (schedTargetEmail d)
    (totalSales d) (totalRevenue d) (tbody d) h (dark d).

Definition with_dom (f : Dom → Dom) (st : State) : State :=
  mkState (dailySalesChart st) (productChart st) (regionChart st)
    (currentData st) (fullTableData st) (sortDirection st) (token st)
    (localStorage st) (f (dom st)).

Definition set_charts (c1 c2 c3 : option Chart) (st : State) : State :=
  mkState c1 c2 c3 (currentData st) (fullTableData st) (sortDirection st)
    (token st) (localStorage st) (dom st).

Definition set_currentData (d : option Obj) (st : State) : State :=
  mkState (dailySalesChart st) (productChart st) (regionChart st) d
    (fullTableData st) (sortDirection st) (token st) (localStorage st) (dom st).

Definition set_fullTableData (rows : list Row) (st : State) : State :=
  mkState (dailySalesChart st) (productChart st) (regionChart st)
    (currentData st) rows (sortDirection st) (token st) (localStorage st)
    (dom st).

Definition set_sortDirection (m : gmap string bool) (st : State) : State :=
  mkState (dailySalesChart st) (productChart st) (regionChart st)
    (currentData st) (fullTableData st) m (token st) (localStorage st) (dom st).

Definition set_token (t : option string) (st : State) : State :=
  mkState (dailySalesChart st) (productChart st) (regionChart st)
    (currentData st) (fullTableData st) (sortDirection st) t (localStorage st)
    (dom st).

Definition set_localStorage (m : gmap string string) (st : State) : State :=
  mkState (dailySalesChart st) (productChart st) (regionChart st)
    (currentData st) (fullTableData st) (sortDirection st) (token st) m
    (dom st).

(** ** The monad of handlers *)

(** What the outside world answers: the network to each request, the user
    to [prompt]. *)
Record Env := mkEnv {
  network : Request → Outcome;
  prompt_answer : option string
}.

Inductive Completion (A : Type) :=
| Fulfilled (a : A)
| Rejected.
Arguments Fulfilled {A} a.
Arguments Rejected {A}.

Definition Js (A : Type) : Type :=
  Env → State → Completion A * State * list Event.

Global Instance Js_ret : MRet Js := λ A a _ st, (Fulfilled a, st, []).

Global Instance Js_bind : MBind Js := λ A B f m env st,
  match m env st with
  | (Fulfilled a, st1, ev1) =>
      match f a env st1 with
      | (c, st2, ev2) => (c, st2, (ev1 ++ ev2)%list)
      end
  | (Rejected, st1, ev1) => (Rejected, st1, ev1)
  end.

Definition get_state : Js State := λ _ st, (Fulfilled st, st, []).
Definition modify (f : State → State) : Js unit := λ _ st, (Fulfilled tt, f st, []).
Definition emit (e : Event) : Js unit := λ _ st, (Fulfilled tt, st, [e]).
Definition reject {A} : Js A := λ _ st, (Rejected, st, []).

(** [alert(msg)] *)
Definition alert (msg : string) : Js unit := emit (Alert msg).

(** [prompt(msg)] *)
Definition prompt (msg : string) : Js (option string) :=
  λ env st, (Fulfilled (prompt_answer env), st, [Prompt msg]).

(** [await fetch(...)]: the request goes out; a transport failure rejects. *)
Definition fetch (req : Request) : Js Response := λ env st,
  match network env req with
  | NetworkFailure => (Rejected, st, [Fetch req])
  | Respond res => (Fulfilled res, st, [Fetch req])
  end.

(** [await res.json()]: rejects when the body is not JSON. *)
Definition res_json (res : Response) : Js Json :=
  match json res with
  | Some j => mret j
  | None => reject
  end.

Definition GET (u : Url) : Request := mkRequest "GET" u None None.
Definition POST (u : string) (auth : option string) (b : ReqBody) : Request :=
  mkRequest "POST" (mkUrl u None) auth (Some b).

(** The state and the log a handler leaves behind. *)
Definition state_after {A} (m : Js A) (env : Env) (st : State) : State := (m env st).1.2.
Definition events_of {A} (m : Js A) (env : Env) (st : State) : list Event := (m env st).2.
Definition completion_of {A} (m : Js A) (env : Env) (st : State) : Completion A := (m env st).1.1.

(** ** URLSearchParams *)

Definition params_append (k v : string) (l : list (string * string)) :
    list (string * string) :=
  (l ++ [(k, v)])%list.

(** [params.set(k, v)]: the first entry named [k] takes the value and the
    later ones go; without such an entry the pair is appended. *)
Fixpoint params_set (k v : string) (l : list (string * string)) :
    list (string * string) :=
  match l with
  | [] => [(k, v)]
  | (k', v') :: l' =>
      if (k' =? k)%string
      then (k, v) :: List.filter (λ p, negb (p.1 =? k)%string) l'
      else (k', v') :: params_set k v l'
  end.

(** [if (value) params.append(k, value)] *)
Definition append_if_truthy (k v : string) (l : list (string * string)) :
    list (string * string) :=
  if truthy v then params_append k v l else l.

(** The optional argument of [fetchAndRender]. *)
Record Filters := mkFilters {
  filters_region : option string;
  filters_product : option string
}.

Definition no_filters : Filters := mkFilters None None.

Definition set_if_truthy (k : string) (v : option string)
    (l : list (string * string)) : list (string * string) :=
  match v with
  | Some s => if truthy s then params_set k s l else l
  | None => l
  end.

(** ** Rendering *)

Definition updateSummaryCards (data : Obj) : Js unit :=
  modify (with_dom (set_totals (default 0 (total_sales data))
                               (default 0 (total_revenue data)))).

Definition getTickColor (st : State) : string :=
  if dark (dom st) then "#f3f4f6" else "#666".

Definition renderCharts (data : Obj) : Js unit :=
  st ← get_state;
  let daily := default [] (daily_sales data) in
  let byProduct := default [] (sales_by_product data) in
  let byRegion := default [] (sales_by_region data) in
  let tick := Some (getTickColor st) in
  modify (set_charts
    (Some (mkChart "line" (daily.*1) (daily.*2) tick))
    (Some (mkChart "pie" (byProduct.*1) (byProduct.*2) None))
    (Some (mkChart "bar" (byRegion.*1) (byRegion.*2) tick))).

Definition renderTable (data : option (list Row)) : Js unit :=
  modify (set_fullTableData (default [] data));;
  modify (with_dom (set_tbody (map tr (default [] data)))).

(** ** Fetch and render *)

Definition stats_params (d : Dom) (filters : Filters) : list (string * string) :=
  let params := [] in
  let params := append_if_truthy "start_date" (startDate d) params in
  let params := append_if_truthy "end_date" (endDate d) params in
  let params := append_if_truthy "region" (regionFilter d) params in
  let params := append_if_truthy "product" (productFilter d) params in
  let params := set_if_truthy "region" (filters_region filters) params in
  let params := set_if_truthy "product" (filters_product filters) params in
  params.

Definition fetchAndRender (filters : Filters) : Js unit :=
  st ← get_state;
  let params := stats_params (dom st) filters in
  let url := mkUrl STATS_URL (match params with [] => None | _ => Some params end) in
  res ← fetch (GET url);
  j ← res_json res;
  let data := as_obj j in
  modify (set_currentData (Some data));;
  updateSummaryCards data;;
  renderCharts data;;
  renderTable (table_data data).

(** [rows.map(...)] needs an array. *)
Definition as_rows (j : Json) : Js (list Row) :=
  match j with
  | JArr rows => mret rows
  | JObj _ => reject
  end.

Definition applyFiltersAndRender : Js unit :=
  st ← get_state;
  let preset := timeFilter (dom st) in
  if (preset =? "last-3-days")%string || (preset =? "last-5-days")%string then
    r ← fetch (GET (mkUrl DATA_URL None));
    j ← res_json r;
    rows ← as_rows j;
    let sorted := js_sort default_compare (map date rows) in
    match sorted with
    | [] => mret tt
    | _ :: _ =>
        let count := if (preset =? "last-3-days")%string then 3%nat else 5%nat in
        let lastDates := slice_last count sorted in
        modify (with_dom (set_dates (default "" (head lastDates))
                                    (default "" (last lastDates))));;
        fetchAndRender no_filters
    end
  else
    (if (preset =? "all")%string
     then modify (with_dom (set_dates "" ""))
     else mret tt);;
    fetchAndRender no_filters.

(** ** Exports *)

Definition export_params (d : Dom) : list (string * string) :=
  let params := [] in
  let params := append_if_truthy "region" (regionFilter d) params in
  let params := append_if_truthy "product" (productFilter d) params in
  let params := append_if_truthy "start_date" (startDate d) params in
  let params := append_if_truthy "end_date" (endDate d) params in
  params.

Definition exportData (format : string) : Js unit :=
  st ← get_state;
  let params := export_params (dom st) in
  emit (Navigate (mkUrl (API_BASE +:+ "/api/export/" +:+ format) (Some params))).

Definition exportPDF : Js unit :=
  st ← get_state;
  match dailySalesChart st, productChart st, regionChart st with
  | Some c1, Some c2, Some c3 =>
      let charts := [("Daily Sales Trend", c1); ("Sales by Product", c2);
                     ("Sales by Region", c3)] in
      _ ← fetch (POST EXPORT_PDF None
                  (BodyReport charts (totalSales (dom st)) (totalRevenue (dom st))));
      emit (Download "dashboard_report.pdf")
  | _, _, _ => alert "Charts not ready"
  end.

(** ** Register, log in, schedule *)

(** [x || fallback] on an optional string. *)
Definition or_else (x : option string) (fallback : string) : string :=
  match x with
  | Some s => if truthy s then s else fallback
  | None => fallback
  end.

(** [value || null] *)
Definition or_null (s : string) : option string :=
  if truthy s then Some s else None.

Definition truthy_opt (t : option string) : bool :=
  match t with
  | Some s => truthy s
  | None => false
  end.

(** [localStorage.setItem(k, v)] stores [String(v)]. *)
Definition setItem (k : string) (v : option string) : Js unit :=
  st ← get_state;
  modify (set_localStorage (<[k := default "undefined" v]> (localStorage st))).

Definition registerUser : Js unit :=
  st ← get_state;
  let email := authEmail (dom st) in
  let password := authPassword (dom st) in
  if negb (truthy email) || negb (truthy password)
  then alert "Email & password required"
  else
    res ← fetch (POST REGISTER_URL None (BodyCredentials email password));
    j ← res_json res;
    let data := as_obj j in
    if ok res then
      modify (set_token (data_token data));;
      setItem "dashboard_token" (data_token data);;
      alert "Registered & logged in";;
      modify (with_dom (set_modalHidden true))
    else alert (or_else (data_error data) "Registration failed").

Definition loginUser : Js unit :=
  st ← get_state;
  let email := authEmail (dom st) in
  let password := authPassword (dom st) in
  if negb (truthy email) || negb (truthy password)
  then alert "Email & password required"
  else
    res ← fetch (POST LOGIN_URL None (BodyCredentials email password));
    j ← res_json res;
    let data := as_obj j in
    if ok res then
      modify (set_token (data_token data));;
      setItem "dashboard_token" (data_token data);;
      alert "Logged in";;
      modify (with_dom (set_modalHidden true))
    else alert (or_else (data_error data) "Login failed").

Definition scheduleEmail : Js unit :=
  st ← get_state;
  if negb (truthy_opt (token st))
  then alert "Please login/register first."
  else
    target ← (if truthy (schedTargetEmail (dom st))
              then mret (Some (schedTargetEmail (dom st)))
              else prompt "Send report to email:");
    if negb (truthy_opt target)
    then alert "Target email required."
    else
      let d := dom st in
      let body := BodySchedule (default "" target) (or_null (regionFilter d))
                    (or_null (productFilter d)) (or_null (startDate d))
                    (or_null (endDate d)) "weekly" in
      res ← fetch (POST SCHEDULE_URL
                    (Some ("Bearer " +:+ default "" (token st))) body);
      j ← res_json res;
      let data := as_obj j in
      if ok res then
        alert "Scheduled! You will receive reports weekly.";;
        modify (with_dom (set_modalHidden true))
      else alert (or_else (data_error data) "Failed to schedule").

(** ** Table: search and sort *)

(** The callback of [fullTableData.filter] in [initSearch]. *)
Definition row_matches (term : string) (row : Row) : bool :=
  existsb (λ v, includes (toLowerCase (String_of v)) term) (Object_values row).

(** The [input] listener of [initSearch]; [value] is [e.target.value]. *)
Definition initSearch_input (value : string) : Js unit :=
  st ← get_state;
  let term := toLowerCase value in
  let filtered := List.filter (row_matches term) (fullTableData st) in
  renderTable (Some filtered).

(** [!sortDirection[key]]: a missing entry is [undefined]. *)
Definition toggled (m : gmap string bool) (key : string) : bool :=
  negb (default false (m !! key)).

(** What the user does to the table between two fetches. *)
Inductive Interaction :=
| TypeSearch (value : string)
| ClickHeader (key : Field).

Section sorting.
Context `{Collator}.

(** The comparator passed to [sort] in [initTableSorting]. *)
Definition row_compare (key : Field) (asc : bool) (a b : Row) : Z :=
  match key with
  | FSales => if asc then sales a - sales b else sales b - sales a
  | FRevenue => if asc then revenue a - revenue b else revenue b - revenue a
  | FDate =>
      if asc then localeCompare (date a) (date b)
      else localeCompare (date b) (date a)
  | FProduct =>
      if asc then localeCompare (product a) (product b)
      else localeCompare (product b) (product a)
  | FRegion =>
      if asc then localeCompare (region a) (region b)
      else localeCompare (region b) (region a)
  end.

(** The [click] listener of a header in [initTableSorting]. *)
Definition initTableSorting_click (key : Field) : Js unit :=
  st ← get_state;
  let dir := toggled (sortDirection st) (key_name key) in
  modify (set_sortDirection (<[key_name key := dir]> (sortDirection st)));;
  let sorted := js_sort (row_compare key dir) (fullTableData st) in
  renderTable (Some sorted).

Definition interact (i : Interaction) : Js unit :=
  match i with
  | TypeSearch value => initSearch_input value
  | ClickHeader key => initTableSorting_click key
  end.

Fixpoint interactions (l : list Interaction) : Js unit :=
  match l with
  | [] => mret tt
  | i :: l' => interact i;; interactions l'
  end.
End sorting.

(** ** A collator to run examples with: the code-unit order *)

#[refine] Global Instance code_unit_collator : Collator :=
  {| localeCompare := default_compare |}.
Proof.
  - intros a b. unfold default_compare.
    rewrite (String.compare_antisym a b).
    destruct (String.compare b a); simpl; lia.
  - intros a b c Hab Hbc.
    assert (Hle : ∀ x y, default_compare x y ≤ 0 ↔ String.le x y).
    { intros x y. unfold default_compare, String.le, String.leb.
      destruct (String.compare x y); simpl; intuition (lia || done). }
    apply Hle. transitivity b; by apply Hle.
Defined.

(** ** Running the page *)

Definition initial_dom : Dom :=
  mkDom "" "" "" "" "" "" "" "" 0 0 [] true false.

(** The page before its first fetch resolves. *)
Definition initial_state : State :=
  mkState None None None None [] ∅ None ∅ initial_dom.

(** A backend that answers [/api/data] with [rows] and every other request
    with [res]. *)
Definition backend (rows : list Row) (res : Response) : Env :=
  mkEnv (λ req, if (base (url req) =? DATA_URL)%string
                then Respond (mkResponse true (Some (JArr rows)))
                else Respond res)
        None.

Definition offline : Env := mkEnv (λ _, NetworkFailure) None.

Definition stats_of (rows : list Row) : Obj :=
  mkObj None None (Some (foldr Z.add 0 (map sales rows)))
    (Some (foldr Z.add 0 (map revenue rows))) (Some []) (Some []) (Some [])
    (Some rows).

(** The page after the stats fetch delivered [rows]. *)
Definition loaded (rows : list Row) : State :=
  state_after (fetchAndRender no_filters)
    (backend rows (mkResponse true (Some (JObj (stats_of rows))))) initial_state.

Definition row1 : Row := mkRow "2024-01-01" "A" "North" 10 100.
Definition row2 : Row := mkRow "2024-01-02" "B" "South" 5 50.

Definition on_date (d : string) : Row := mkRow d "A" "North" 1 10.

(** The search term and the sorted column in force after a history. *)
Definition current_search (h : list Interaction) : string :=
  default "" (last (omap (λ i, match i with
                               | TypeSearch v => Some v
                               | ClickHeader _ => None
                               end) h)).

Definition current_sort_field (h : list Interaction) : option Field :=
  last (omap (λ i, match i with
                   | ClickHeader k => Some k
                   | TypeSearch _ => None
                   end) h).

(** ** The properties, in the words of the specification *)

(** [t] occurs in [s]. *)
Definition contains (s t : string) : Prop :=
  ∃ pre post, s = pre +:+ t +:+ post.

(** At least one field of the row, in lower case, contains the term in
    lower case. *)
Definition some_field_contains (term : string) (row : Row) : Prop :=
  ∃ v, v ∈ Object_values row ∧
       contains (toLowerCase (String_of v)) (toLowerCase term).

(** [out] is [rows] with exactly the rows satisfying [P] kept, in order. *)
Inductive Kept {A} (P : A → Prop) : list A → list A → Prop :=
| Kept_nil : Kept P [] []
| Kept_keep x l out : P x → Kept P l out → Kept P (x :: l) (x :: out)
| Kept_drop x l out : ¬ P x → Kept P l out → Kept P (x :: l) out.

(** The range of a last-n-days preset: minimum and maximum of the [n]
    largest distinct date strings. *)
Definition largest_distinct (n : nat) (dates : list string) : list string :=
  take n (rev (js_sort default_compare (remove_dups dates))).

Definition preset_range_spec (n : nat) (dates : list string) :
    option (string * string) :=
  let subset := js_sort default_compare (largest_distinct n dates) in
  match head subset, last subset with
  | Some lo, Some hi => Some (lo, hi)
  | _, _ => None
  end.

(** The order of the rows under a sort key, field by field. *)
Definition key_le `{Collator} (key : Field) (asc : bool) (a b : Row) : Prop :=
  match key with
  | FSales => if asc then sales a ≤ sales b else sales b ≤ sales a
  | FRevenue => if asc then revenue a ≤ revenue b else revenue b ≤ revenue a
  | FDate =>
      if asc then localeCompare (date a) (date b) ≤ 0
      else localeCompare (date b) (date a) ≤ 0
  | FProduct =>
      if asc then localeCompare (product a) (product b) ≤ 0
      else localeCompare (product b) (product a) ≤ 0
  | FRegion =>
      if asc then localeCompare (region a) (region b) ≤ 0
      else localeCompare (region b) (region a) ≤ 0
  end.

(** Two rows have the same value under [key]. *)
Definition same_key (key : Field) (a b : Row) : bool :=
  match key with
  | FSales => sales a =? sales b
  | FRevenue => revenue a =? revenue b
  | FDate => (date a =? date b)%string
  | FProduct => (product a =? product b)%string
  | FRegion => (region a =? region b)%string
  end.

(** The user picks a preset in the [timeFilter] select. *)
Definition select_preset (p : string) (st : State) : State :=
  with_dom (λ d, mkDom (startDate d) (endDate d) (regionFilter d)
                   (productFilter d) p (authEmail d) (authPassword d)
                   (schedTargetEmail d) (totalSales d) (totalRevenue d)
                   (tbody d) (modalHidden d) (dark d)) st.

(** The user fills in the sign-in form. *)
Definition type_credentials (email password : string) (st : State) : State :=
  with_dom (λ d, mkDom (startDate d) (endDate d) (regionFilter d)
                   (productFilter d) (timeFilter d) email password
                   (schedTargetEmail d) (totalSales d) (totalRevenue d)
                   (tbody d) (modalHidden d) (dark d)) st.

(** The user sets the four filter inputs. *)
Definition set_filters (s e r p : string) (st : State) : State :=
  with_dom (λ d, mkDom s e r p (timeFilter d) (authEmail d) (authPassword d)
                   (schedTargetEmail d) (totalSales d) (totalRevenue d)
                   (tbody d) (modalHidden d) (dark d)) st.

Definition example_dates : list string :=
  ["2024-01-01"; "2024-01-02"; "2024-01-03"; "2024-01-05"].

(** Raw rows as [/api/data] has them: several rows on the last day. *)
Definition repeated_dates : list string :=
  ["2024-01-01"; "2024-01-02"; "2024-01-03"; "2024-01-03"; "2024-01-03"].

(** An error answer with a JSON body, as the sign-in endpoints give. *)
Definition error_response (msg : string) : Response :=
  mkResponse false
    (Some (JObj (mkObj None (Some msg) None None None None None None))).

(** The two sign-in handlers and the request each one sends. *)
Inductive AuthOp := Login | Register.

Definition auth_handler (op : AuthOp) : Js unit :=
  match op with
  | Login => loginUser
  | Register => registerUser
  end.

Definition auth_request (op : AuthOp) (st : State) : Request :=
  POST (match op with Login => LOGIN_URL | Register => REGISTER_URL end) None
    (BodyCredentials (authEmail (dom st)) (authPassword (dom st))).

(** ** The rest of the page: start-up, theme, modal, event wiring *)

(** [[...new Set(xs)]]: the values in the order of their first occurrence. *)
Fixpoint Set_values_from (seen xs : list string) : list string :=
  match xs with
  | [] => []
  | x :: xs' =>
      if bool_decide (x ∈ seen) then Set_values_from seen xs'
      else x :: Set_values_from (x :: seen) xs'
  end.

Definition Set_values (xs : list string) : list string := Set_values_from [] xs.

(** [initFilters]; its result is the option values it appends to the region
    select and to the product select, in order. *)
Definition initFilters : Js (list string * list string) :=
  res ← fetch (GET (mkUrl DATA_URL None));
  j ← res_json res;
  rows ← as_rows j;
  let regions :=
    js_sort default_compare (List.filter truthy (Set_values (map region rows))) in
  let products :=
    js_sort default_compare (List.filter truthy (Set_values (map product rows))) in
  mret (regions, products).

(** [let token = localStorage.getItem("dashboard_token") || null] *)
Definition load_token (storage : gmap string string) : option string :=
  match storage !! "dashboard_token" with
  | Some s => or_null s
  | None => None
  end.

(** The module variables when the script is loaded, over the stored entries
    and the document as the HTML gives it. *)
Definition page_load (storage : gmap string string) (d : Dom) : State :=
  mkState None None None None [] ∅ (load_token storage) storage d.

(** A call of an async function whose promise nobody awaits: a rejection
    stays inside it. *)
Definition detached {A} (m : Js A) : Js unit := λ env st,
  match m env st with
  | (_, st', ev) => (Fulfilled tt, st', ev)
  end.

(** The [DOMContentLoaded] listener; the calls that only register listeners
    are the event wiring below. *)
Definition DOMContentLoaded : Js unit :=
  detached initFilters;;
  detached (fetchAndRender no_filters).

Definition set_dark (b : bool) (d : Dom) : Dom :=
  mkDom (startDate d) (endDate d) (regionFilter d) (productFilter d)
    (timeFilter d) (authEmail d) (authPassword d) (schedTargetEmail d)
    (totalSales d) (totalRevenue d) (tbody d) (modalHidden d) b.

(** The [click] listener of [initThemeToggle]; its result is the text it
    gives the button. *)
Definition themeToggle_click : Js string :=
  modify (with_dom (λ d, set_dark (negb (dark d)) d));;
  st ← get_state;
  let text := if dark (dom st) then "☀️" else "🌙" in
  match currentData st with
  | Some data => renderCharts data
  | None => mret tt
  end;;
  mret text.

(** The modal listeners of [bindUI]. *)
Definition showAuth_click : Js unit := modify (with_dom (set_modalHidden false)).
Definition closeModal_click : Js unit := modify (with_dom (set_modalHidden true)).
Definition scheduleBtn_click : Js unit := modify (with_dom (set_modalHidden false)).

(** The controls the user can edit. *)
Inductive Control :=
| CStartDate | CEndDate | CRegionFilter | CProductFilter | CTimeFilter
| CAuthEmail | CAuthPassword | CSchedTargetEmail.

Definition set_control (c : Control) (v : string) (d : Dom) : Dom :=
  mkDom (if c is CStartDate then v else startDate d)
    (if c is CEndDate then v else endDate d)
    (if c is CRegionFilter then v else regionFilter d)
    (if c is CProductFilter then v else productFilter d)
    (if c is CTimeFilter then v else timeFilter d)
    (if c is CAuthEmail then v else authEmail d)
    (if c is CAuthPassword then v else authPassword d)
    (if c is CSchedTargetEmail then v else schedTargetEmail d)
    (totalSales d) (totalRevenue d) (tbody d) (modalHidden d) (dark d).

(** The five controls whose [change] event [bindUI] listens to. *)
Definition is_filter_control (c : Control) : bool :=
  match c with
  | CStartDate | CEndDate | CRegionFilter | CProductFilter | CTimeFilter => true
  | CAuthEmail | CAuthPassword | CSchedTargetEmail => false
  end.

(** What can happen on the page, and the listener each event reaches. *)
Inductive UiEvent :=
| Loaded
| Change (c : Control) (v : string)
| SearchInput (value : string)
| ClickTh (key : Field)
| ClickExportCSV
| ClickExportExcel
| ClickExportPDF
| ClickRegister
| ClickLogin
| ClickConfirmSchedule
| ClickShowAuth
| ClickCloseModal
| ClickScheduleBtn
| ClickThemeToggle.

Definition dispatch `{Collator} (e : UiEvent) : Js unit :=
  match e with
  | Loaded => DOMContentLoaded
  | Change c v =>
      modify (with_dom (set_control c v));;
      if is_filter_control c then detached applyFiltersAndRender else mret tt
  | SearchInput value => initSearch_input value
  | ClickTh key => initTableSorting_click key
  | ClickExportCSV => exportData "csv"
  | ClickExportExcel => exportData "excel"
  | ClickExportPDF => detached exportPDF
  | ClickRegister => detached registerUser
  | ClickLogin => detached loginUser
  | ClickConfirmSchedule => detached scheduleEmail
  | ClickShowAuth => showAuth_click
  | ClickCloseModal => closeModal_click
  | ClickScheduleBtn => scheduleBtn_click
  | ClickThemeToggle => detached themeToggle_click
  end.

(** A session: events in order, each with the answers the outside world
    gives while its listener runs. *)
Fixpoint run `{Collator} (l : list (UiEvent * Env)) (st : State) : State :=
  match l with
  | [] => st
  | (e, env) :: l' => run l' (state_after (dispatch e) env st)
  end.

Fixpoint run_events `{Collator} (l : list (UiEvent * Env)) (st : State) :
    list Event :=
  match l with
  | [] => []
  | (e, env) :: l' =>
      (events_of (dispatch e) env st
       ++ run_events l' (state_after (dispatch e) env st))%list
  end.

(** The rows of the last answer of the stats endpoint. *)
Definition dataset (st : State) : list Row :=
  default [] (currentData st ≫= table_data).

(** What holds of the page at any time: the table body shows the table
    data; the table data are rows of the last answer, none more often than
    it has them; cards and charts are those of the last answer under the
    current theme (drawing them again changes nothing); a token in memory
    is the stored one. *)
Record coherent (st : State) : Prop := mk_coherent {
  table_shown : tbody (dom st) = map tr (fullTableData st);
  rows_fetched : fullTableData st ⊆+ dataset st;
  cards_and_charts :
    match currentData st with
    | Some data =>
        state_after (updateSummaryCards data;; renderCharts data) offline st = st
    | None =>
        dailySalesChart st = None ∧ productChart st = None ∧ regionChart st = None
    end;
  token_stored : ∀ t, token st = Some t →
                      localStorage st !! "dashboard_token" = Some t
}.


(** * Properties *)

(** ** Running a handler step by step *)

Lemma state_after_bind {A B} (m : Js A) (f : A → Js B) env st a st1 ev1 :
  m env st = (Fulfilled a, st1, ev1) →
  state_after (m ≫= f) env st = state_after (f a) env st1.
Proof.
  intros Hm. unfold state_after, mbind, Js_bind. rewrite Hm.
  by destruct (f a env st1) as [[??]?].
Qed.

Lemma state_after_bind_rejected {A B} (m : Js A) (f : A → Js B) env st st1 ev1 :
  m env st = (Rejected, st1, ev1) →
  state_after (m ≫= f) env st = st1.
Proof. intros Hm. unfold state_after, mbind, Js_bind. by rewrite Hm. Qed.

(** ** Sorting *)

Section js_sort_facts.
Context {A : Type} (cmp : A → A → Z).
Implicit Types (x : A) (l : list A).

Lemma sort_insert_Permutation x l : sort_insert cmp x l ≡ₚ x :: l.
Proof.
  induction l as [|y l IH]; simpl; [done|].
  destruct (cmp x y <=? 0); [done|].
  rewrite IH. apply perm_swap.
Qed.

Lemma js_sort_Permutation l : js_sort cmp l ≡ₚ l.
Proof.
  induction l as [|x l IH]; simpl; [done|].
  by rewrite sort_insert_Permutation, IH.
Qed.

(** Rows of a class whose members never overtake each other stay in their
    order: this is stability. *)
Lemma filter_sort_insert (P : A → bool) x l :
  (∀ a b, P a = true → P b = true → cmp a b ≤ 0) →
  List.filter P (sort_insert cmp x l) = List.filter P (x :: l).
Proof.
  intros HP. induction l as [|y l IH]; simpl; [done|].
  destruct (cmp x y <=? 0) eqn:E; simpl; [done|].
  simpl in IH. rewrite IH.
  destruct (P x) eqn:Px, (P y) eqn:Py; try done.
  specialize (HP x y Px Py). apply Z.leb_gt in E. lia.
Qed.

Lemma js_sort_stable (P : A → bool) l :
  (∀ a b, P a = true → P b = true → cmp a b ≤ 0) →
  List.filter P (js_sort cmp l) = List.filter P l.
Proof.
  intros HP. induction l as [|x l IH]; simpl; [done|].
  rewrite filter_sort_insert by done. simpl. by rewrite IH.
Qed.

Hypothesis cmp_total : ∀ a b, cmp a b ≤ 0 ∨ cmp b a ≤ 0.
Hypothesis cmp_trans : ∀ a b c, cmp a b ≤ 0 → cmp b c ≤ 0 → cmp a c ≤ 0.

Lemma sort_insert_sorted x l :
  StronglySorted (λ a b, cmp a b ≤ 0) l →
  StronglySorted (λ a b, cmp a b ≤ 0) (sort_insert cmp x l).
Proof.
  induction 1 as [|y l Hl IH Hy]; simpl.
  { repeat constructor. }
  destruct (cmp x y <=? 0) eqn:E.
  - apply Z.leb_le in E. constructor; [by constructor|].
    constructor; [done|]. eapply Forall_impl; [exact Hy|].
    intros z Hz. by eapply cmp_trans.
  - apply Z.leb_gt in E. constructor; [done|].
    rewrite sort_insert_Permutation. constructor; [|done].
    destruct (cmp_total x y); [lia|done].
Qed.

Lemma js_sort_sorted l : StronglySorted (λ a b, cmp a b ≤ 0) (js_sort cmp l).
Proof.
  induction l as [|x l IH]; simpl; [constructor|].
  by apply sort_insert_sorted.
Qed.
End js_sort_facts.

Lemma StronglySorted_impl {A} (R S : relation A) l :
  (∀ a b, R a b → S a b) → StronglySorted R l → StronglySorted S l.
Proof.
  intros HRS. induction 1 as [|x l Hl IH Hx]; constructor; [done|].
  eapply Forall_impl; [exact Hx|]. auto.
Qed.

Lemma StronglySorted_rev {A} (R : relation A) l :
  StronglySorted R l → StronglySorted (flip R) (rev l).
Proof.
  induction 1 as [|x l Hl IH Hx]; simpl; [constructor|].
  apply StronglySorted_app_2; [|done|repeat constructor].
  intros a b Ha Hb. apply list_elem_of_singleton in Hb as ->.
  rewrite Forall_forall in Hx. apply Hx.
  apply list_elem_of_In, in_rev, list_elem_of_In in Ha. done.
Qed.

(** ** Strings *)

Lemma append_cons c s t : String c s +:+ t = String c (s +:+ t).
Proof. reflexivity. Qed.

Lemma append_nil t : "" +:+ t = t.
Proof. reflexivity. Qed.

Lemma prefix_spec t s : String.prefix t s = true ↔ ∃ post, s = t +:+ post.
Proof.
  revert s. induction t as [|c t IH]; intros [|c' s]; simpl.
  { split; [by exists ""|done]. }
  { split; [by eexists|done]. }
  { split; [done|]. by intros [post ?]. }
  destruct (ascii_dec c c') as [->|Hne].
  - rewrite IH. split; intros [post Hs]; exists post;
      rewrite append_cons in *; congruence.
  - split; [done|]. intros [post Hs]. rewrite append_cons in Hs. congruence.
Qed.

Lemma includes_spec s t : includes s t = true ↔ contains s t.
Proof.
  unfold contains. induction s as [|c s IH].
  - cbn [includes]. rewrite orb_false_r, prefix_spec. split.
    + intros [post ->]. by exists "", post.
    + intros [[|??] [post Hs]]; [by exists post|].
      rewrite append_cons in Hs. discriminate.
  - cbn [includes]. rewrite orb_true_iff, prefix_spec, IH. split.
    + intros [[post ->]|(pre & post & ->)].
      * by exists "", post.
      * by exists (String c pre), post.
    + intros [[|c' pre] [post Hs]].
      * left. by exists post.
      * right. exists pre, post. rewrite append_cons in Hs. congruence.
Qed.

(** ** Searching the table *)

Lemma Kept_elem_of {A} (P : A → Prop) l out x :
  Kept P l out → x ∈ out ↔ x ∈ l ∧ P x.
Proof.
  induction 1 as [|y l out Hy _ IH|y l out Hy _ IH].
  - split; [intros Hx|intros [Hx _]]; by apply not_elem_of_nil in Hx.
  - rewrite !elem_of_cons, IH. intuition congruence.
  - rewrite elem_of_cons, IH. intuition congruence.
Qed.


Lemma filter_Kept {A} (f : A → bool) (P : A → Prop) l :
  (∀ x, f x = true ↔ P x) → Kept P l (List.filter f l).
Proof.
  intros Hf. induction l as [|x l IH]; simpl; [constructor|].
  destruct (f x) eqn:E.
  - apply Kept_keep; [by apply Hf|done].
  - apply Kept_drop; [|done]. rewrite <-Hf. congruence.
Qed.

Lemma filter_idemp {A} (f : A → bool) l :
  List.filter f (List.filter f l) = List.filter f l.
Proof.
  induction l as [|x l IH]; simpl; [done|].
  destruct (f x) eqn:E; simpl; rewrite ?E, IH; done.
Qed.

Lemma row_matches_spec term row :
  row_matches (toLowerCase term) row = true ↔ some_field_contains term row.
Proof.
  unfold row_matches, some_field_contains. rewrite existsb_exists.
  split; intros (v & Hv & Hc); exists v.
  - split; [by apply list_elem_of_In|by apply includes_spec].
  - split; [by apply list_elem_of_In|by apply includes_spec].
Qed.

Lemma initSearch_input_state value env st :
  state_after (initSearch_input value) env st =
  let out := List.filter (row_matches (toLowerCase value)) (fullTableData st) in
  with_dom (set_tbody (map tr out)) (set_fullTableData out st).
Proof. reflexivity. Qed.

(** C4. Typing a term in the search box keeps exactly the rows of the table
    data in which the lower-cased string form of at least one field contains
    the lower-cased term, in their order ([Kept]); the table shows those
    rows; and typing the same term again changes nothing. This holds for
    every term, the non-empty ones included. *)
Theorem search_keeps_exactly_the_matching_rows (value : string) (env : Env)
    (st : State) :
  let st1 := state_after (initSearch_input value) env st in
  Kept (some_field_contains value) (fullTableData st) (fullTableData st1)
  ∧ tbody (dom st1) = map tr (fullTableData st1)
  ∧ fullTableData (state_after (initSearch_input value) env st1)
    = fullTableData st1
  ∧ state_after (initSearch_input value) env st1 = st1.
Proof.
  cbv zeta. rewrite !initSearch_input_state. cbv zeta. simpl.
  rewrite !filter_idemp. split_and!; try done.
  apply filter_Kept, row_matches_spec.
Qed.

(** ** Sorting the table *)

Lemma StronglySorted_strict {A} (f : A → Z) (R S : relation A) l :
  (∀ a b, R a b → f a ≠ f b → S a b) →
  StronglySorted R l → NoDup (map f l) → StronglySorted S l.
Proof.
  intros HRS. induction 1 as [|x l Hl IH Hx]; simpl; [constructor|].
  rewrite NoDup_cons. intros [Hin Hnd]. constructor; [by apply IH|].
  rewrite Forall_forall in Hx |- *. intros y Hy.
  apply HRS; [by apply Hx|].
  intros Heq. apply Hin. rewrite Heq. by apply list_elem_of_fmap_2.
Qed.

Section sorting_facts.
Context `{Collator}.

Lemma row_compare_total key asc a b :
  row_compare key asc a b ≤ 0 ∨ row_compare key asc b a ≤ 0.
Proof.
  destruct key, asc; simpl; try lia; apply localeCompare_total.
Qed.

Lemma row_compare_trans key asc a b c :
  row_compare key asc a b ≤ 0 → row_compare key asc b c ≤ 0 →
  row_compare key asc a c ≤ 0.
Proof.
  destruct key, asc; simpl; try lia; eauto using localeCompare_trans.
Qed.

Lemma row_compare_le key asc a b :
  row_compare key asc a b ≤ 0 ↔ key_le key asc a b.
Proof. destruct key, asc; simpl; (done || lia). Qed.

Lemma localeCompare_refl s : localeCompare s s ≤ 0.
Proof. by destruct (localeCompare_total s s). Qed.

Lemma same_key_tie key asc r a b :
  same_key key r a = true → same_key key r b = true →
  row_compare key asc a b ≤ 0.
Proof.
  destruct key, asc; simpl;
    rewrite ?Z.eqb_eq, ?String.eqb_eq; intros <- <-;
    (lia || apply localeCompare_refl).
Qed.

Lemma initTableSorting_click_state key env st :
  state_after (initTableSorting_click key) env st =
  let dir := toggled (sortDirection st) (key_name key) in
  let sorted := js_sort (row_compare key dir) (fullTableData st) in
  with_dom (set_tbody (map tr sorted))
    (set_fullTableData sorted
       (set_sortDirection (<[key_name key := dir]> (sortDirection st)) st)).
Proof. reflexivity. Qed.

(** C5. A click on a header sorts the table data by that column: the result
    is a rearrangement of the rows, ordered by number for [sales] and
    [revenue] and by [localeCompare] for [date], [product] and [region],
    ascending or descending as the column's direction says; rows with the
    same value in the column keep the order they had; the table shows the
    result. *)
Theorem sort_orders_by_key_and_is_stable (key : Field) (env : Env) (st : State) :
  let asc := toggled (sortDirection st) (key_name key) in
  let st1 := state_after (initTableSorting_click key) env st in
  fullTableData st1 ≡ₚ fullTableData st
  ∧ StronglySorted (key_le key asc) (fullTableData st1)
  ∧ (∀ r, List.filter (same_key key r) (fullTableData st1)
          = List.filter (same_key key r) (fullTableData st))
  ∧ tbody (dom st1) = map tr (fullTableData st1).
Proof.
  cbv zeta. rewrite initTableSorting_click_state. cbv zeta. simpl.
  split_and!; [apply js_sort_Permutation| | |done].
  - eapply StronglySorted_impl; [intros a b; apply row_compare_le|].
    apply js_sort_sorted; [apply row_compare_total|apply row_compare_trans].
  - intros r. apply js_sort_stable. intros a b. apply same_key_tie.
Qed.

Lemma interact_sortDirection_other key i env st :
  i ≠ ClickHeader key →
  sortDirection (state_after (interact i) env st) !! key_name key
  = sortDirection st !! key_name key.
Proof.
  intros Hi. destruct i as [v|k]; [done|]. cbn [interact].
  rewrite initTableSorting_click_state. simpl.
  apply lookup_insert_ne. intros Hk. apply Hi. f_equal.
  by destruct k, key.
Qed.

Lemma interactions_cons i h env st :
  state_after (interactions (i :: h)) env st
  = state_after (interactions h) env (state_after (interact i) env st).
Proof.
  unfold state_after. simpl. unfold mbind, Js_bind.
  destruct i; simpl; by destruct (interactions h env _) as [[??]?].
Qed.

Lemma interactions_sortDirection_other key h env st :
  Forall (λ i, i ≠ ClickHeader key) h →
  sortDirection (state_after (interactions h) env st) !! key_name key
  = sortDirection st !! key_name key.
Proof.
  intros Hh. revert st. induction Hh as [|i h Hi _ IH]; intros st; [done|].
  rewrite interactions_cons, IH. by apply interact_sortDirection_other.
Qed.

(** C6. A click on a header flips the direction stored for that column; a
    column never clicked before (no entry in [sortDirection]) gets [true],
    ascending; whatever else is done to the table in between, clicks on
    other headers included, leaves the column's entry alone, so the next
    click on it flips the direction it had last. With no interaction in
    between this is: two clicks in a row flip the direction. *)
Theorem sort_direction_toggles_per_field (key : Field) (h : list Interaction)
    (env : Env) (st : State) :
  Forall (λ i, i ≠ ClickHeader key) h →
  let st1 := state_after (initTableSorting_click key) env st in
  let st2 := state_after (interactions h) env st1 in
  let st3 := state_after (initTableSorting_click key) env st2 in
  (sortDirection st !! key_name key = None →
     sortDirection st1 !! key_name key = Some true
     ∧ fullTableData st1 = js_sort (row_compare key true) (fullTableData st))
  ∧ sortDirection st1 !! key_name key
    = Some (negb (default false (sortDirection st !! key_name key)))
  ∧ sortDirection st2 !! key_name key = sortDirection st1 !! key_name key
  ∧ (∀ b, sortDirection st1 !! key_name key = Some b →
          sortDirection st3 !! key_name key = Some (negb b)
          ∧ fullTableData st3 = js_sort (row_compare key (negb b)) (fullTableData st2)).
Proof.
  intros Hh. cbv zeta.
  pose proof (interactions_sortDirection_other key h env
                (state_after (initTableSorting_click key) env st) Hh) as Hkeep.
  split_and!.
  - intros Hnone. rewrite initTableSorting_click_state. simpl.
    unfold toggled. rewrite Hnone. simpl. by rewrite lookup_insert_eq.
  - rewrite initTableSorting_click_state. simpl. by rewrite lookup_insert_eq.
  - done.
  - intros b Hb.
    rewrite (initTableSorting_click_state key env (state_after (interactions h) env _)).
    simpl. unfold toggled. rewrite Hkeep, Hb. simpl.
    by rewrite lookup_insert_eq.
Qed.

(** C7. When the sales values of the table data are pairwise distinct and
    the [sales] column stands to be sorted ascending, a click on [sales]
    orders the rows by increasing sales and a second click shows exactly
    the reverse of that order. *)
Theorem sort_sales_twice_reverses (env : Env) (st : State) :
  NoDup (map sales (fullTableData st)) →
  default false (sortDirection st !! "sales") = false →
  let st1 := state_after (initTableSorting_click FSales) env st in
  let st2 := state_after (initTableSorting_click FSales) env st1 in
  StronglySorted (λ a b, sales a < sales b) (fullTableData st1)
  ∧ fullTableData st1 ≡ₚ fullTableData st
  ∧ fullTableData st2 = rev (fullTableData st1)
  ∧ tbody (dom st2) = rev (tbody (dom st1)).
Proof.
  intros Hnd Hdir. cbv zeta.
  rewrite (initTableSorting_click_state FSales env (state_after _ env st)).
  rewrite initTableSorting_click_state. cbv zeta. simpl.
  unfold toggled. rewrite Hdir, lookup_insert_eq. simpl.
  set (up := js_sort (row_compare FSales true) (fullTableData st)).
  assert (Hperm : up ≡ₚ fullTableData st) by apply js_sort_Permutation.
  assert (Hup : StronglySorted (λ a b, sales a < sales b) up).
  { apply (StronglySorted_strict sales (λ a b, row_compare FSales true a b ≤ 0));
      [simpl; intros a b; lia| |by rewrite Hperm].
    apply js_sort_sorted; [apply row_compare_total|apply row_compare_trans]. }
  assert (Hrev : js_sort (row_compare FSales false) up = rev up).
  { apply (StronglySorted_unique_strong (λ a b, sales b < sales a)).
    - intros a b _ _ ??. lia.
    - apply (StronglySorted_strict sales (λ a b, row_compare FSales false a b ≤ 0));
        [simpl; intros a b; lia| |by rewrite js_sort_Permutation, Hperm].
      apply js_sort_sorted; [apply row_compare_total|apply row_compare_trans].
    - by apply StronglySorted_rev in Hup.
    - rewrite js_sort_Permutation. apply Permutation_rev. }
  split_and!; [done|done|done|].
  by rewrite Hrev, map_rev.
Qed.
End sorting_facts.

Lemma sort_direction_toggles_per_field_witness :
  Forall (λ i, i ≠ ClickHeader FSales) [TypeSearch "a"; ClickHeader FDate]
  ∧ sortDirection
      (state_after (interactions [TypeSearch "a"; ClickHeader FDate]) offline
         (state_after (initTableSorting_click FSales) offline
            (loaded [row1; row2]))) !! "sales"
    = sortDirection
        (state_after (initTableSorting_click FSales) offline
           (loaded [row1; row2])) !! "sales".
Proof.
  assert (Hh : Forall (λ i, i ≠ ClickHeader FSales)
                 [TypeSearch "a"; ClickHeader FDate])
    by (repeat constructor; discriminate).
  split; [exact Hh|].
  exact (proj1 (proj2 (proj2
    (sort_direction_toggles_per_field FSales [TypeSearch "a"; ClickHeader FDate]
       offline (loaded [row1; row2]) Hh)))).
Defined.

Lemma sort_sales_twice_reverses_witness :
  NoDup (map sales [row1; row2])
  ∧ fullTableData
      (state_after (initTableSorting_click FSales) offline
         (state_after (initTableSorting_click FSales) offline
            (loaded [row1; row2])))
    = rev (fullTableData
             (state_after (initTableSorting_click FSales) offline
                (loaded [row1; row2]))).
Proof.
  assert (Hnd : NoDup (map sales [row1; row2])).
  { apply (bool_decide_unpack _). vm_compute. exact I. }
  split; [exact Hnd|].
  exact (proj1 (proj2 (proj2
    (sort_sales_twice_reverses offline (loaded [row1; row2]) Hnd eq_refl)))).
Defined.

(** ** Guards: export to PDF, scheduling *)

(** C8. Exporting to PDF while one of the three charts is missing, and
    scheduling an e-mail without a token, only raise an alert: the handler
    returns with the state as it was and the alert as its only effect, so no
    request goes out. *)
Theorem missing_precondition_only_alerts (env : Env) (st : State) :
  (dailySalesChart st = None ∨ productChart st = None ∨ regionChart st = None →
     exportPDF env st = (Fulfilled tt, st, [Alert "Charts not ready"]))
  ∧ (truthy_opt (token st) = false →
       scheduleEmail env st
       = (Fulfilled tt, st, [Alert "Please login/register first."])).
Proof.
  split.
  - intros Hmiss. unfold exportPDF, mbind, Js_bind, get_state. simpl.
    destruct (dailySalesChart st), (productChart st), (regionChart st);
      try done.
    destruct Hmiss as [?|[?|?]]; discriminate.
  - intros Htok. unfold scheduleEmail, mbind, Js_bind, get_state. simpl.
    by rewrite Htok.
Qed.

Lemma missing_precondition_only_alerts_witness :
  exportPDF offline initial_state
  = (Fulfilled tt, initial_state, [Alert "Charts not ready"])
  ∧ List.filter is_fetch (events_of scheduleEmail offline initial_state) = [].
Proof.
  destruct (missing_precondition_only_alerts offline initial_state) as [Hpdf Hsched].
  split.
  - apply Hpdf. left. reflexivity.
  - unfold events_of. rewrite Hsched; reflexivity.
Defined.

(** ** Query parameters *)

Lemma truthy_or_null v : or_null v = if truthy v then Some v else None.
Proof. reflexivity. Qed.

(** Case analysis on which of the four filter inputs are filled in. *)
Ltac filter_inputs d :=
  unfold stats_params, export_params, set_if_truthy, append_if_truthy,
    params_append;
  destruct (truthy (regionFilter d)), (truthy (productFilter d)),
    (truthy (startDate d)), (truthy (endDate d)); simpl.

(** C9. With no explicit filter argument, [fetchAndRender] and [exportData]
    send the same set of query parameters: the two lists are rearrangements
    of each other, no key occurs twice, and each of [start_date],
    [end_date], [region] and [product] is bound to its input exactly when
    that input is not empty. The stats request carries them, and so does the
    export URL. *)
Theorem export_query_matches_stats_query (format : string) (env : Env) (st : State) :
  let d := dom st in
  let stats := stats_params d no_filters in
  let export := export_params d in
  stats ≡ₚ export
  ∧ NoDup (export.*1)
  ∧ (list_to_map export : gmap string string) = list_to_map stats
  ∧ (list_to_map export : gmap string string) !! "start_date" = or_null (startDate d)
  ∧ (list_to_map export : gmap string string) !! "end_date" = or_null (endDate d)
  ∧ (list_to_map export : gmap string string) !! "region" = or_null (regionFilter d)
  ∧ (list_to_map export : gmap string string) !! "product" = or_null (productFilter d)
  ∧ (∀ k, k ∉ ["start_date"; "end_date"; "region"; "product"] →
          (list_to_map export : gmap string string) !! k = None)
  ∧ head (events_of (fetchAndRender no_filters) env st)
    = Some (Fetch (GET (mkUrl STATS_URL
                          (match stats with [] => None | _ => Some stats end))))
  ∧ events_of (exportData format) env st
    = [Navigate (mkUrl (API_BASE +:+ "/api/export/" +:+ format) (Some export))].
Proof.
  cbv zeta.
  assert (Hperm : stats_params (dom st) no_filters ≡ₚ export_params (dom st)).
  { filter_inputs (dom st); solve_Permutation. }
  assert (Hnd : NoDup ((export_params (dom st)).*1)).
  { filter_inputs (dom st); by apply (bool_decide_unpack _). }
  split_and!; [done|done| | | | | | |..].
  - apply list_to_map_proper; [done|by symmetry].
  - rewrite truthy_or_null. filter_inputs (dom st); done.
  - rewrite truthy_or_null. filter_inputs (dom st); done.
  - rewrite truthy_or_null. filter_inputs (dom st); done.
  - rewrite truthy_or_null. filter_inputs (dom st); done.
  - intros k Hk. apply not_elem_of_list_to_map_1. intros Hin. apply Hk.
    revert Hin. filter_inputs (dom st);
      rewrite ?elem_of_cons, ?elem_of_nil; intuition.
  - unfold events_of, fetchAndRender, mbind, Js_bind, get_state, fetch. simpl.
    destruct (network env _) as [|res]; simpl; [done|].
    by destruct (res_json res env st) as [[[j|] ?] ?]; simpl;
      repeat match goal with |- context [match ?x with _ => _ end] => destruct x end.
  - reflexivity.
Qed.

(** The two lists differ in order only: dates first for the stats request,
    region and product first for the export. *)
Example query_order_differs :
  let d := dom (set_filters "2024-01-02" "" "North" "" initial_state) in
  stats_params d no_filters = [("start_date", "2024-01-02"); ("region", "North")]
  ∧ export_params d = [("region", "North"); ("start_date", "2024-01-02")].
Proof. split; reflexivity. Qed.

(** ** Signing in *)

Ltac run_handler :=
  unfold state_after, events_of, completion_of, auth_handler, auth_request,
    loginUser, registerUser, fetchAndRender, applyFiltersAndRender,
    updateSummaryCards, renderCharts, renderTable, setItem, alert, emit,
    modify, fetch, res_json, as_rows, reject, get_state, mbind, Js_bind, mret,
    Js_ret;
  simpl.

(** C10. [loginUser] and [registerUser] send nothing and change nothing when
    the e-mail or the password field is empty; and the token in memory and
    the local storage change only when the request was answered with an ok
    status: on an answer that is not ok both stay as they were. *)
Theorem auth_updates_credential_only_on_ok (op : AuthOp) (env : Env) (st : State) :
  let st' := state_after (auth_handler op) env st in
  (truthy (authEmail (dom st)) && truthy (authPassword (dom st)) = false →
     List.filter is_fetch (events_of (auth_handler op) env st) = [] ∧ st' = st)
  ∧ (token st' ≠ token st ∨ localStorage st' ≠ localStorage st →
       ∃ res, network env (auth_request op st) = Respond res ∧ ok res = true)
  ∧ (∀ res, network env (auth_request op st) = Respond res → ok res = false →
       token st' = token st ∧ localStorage st' = localStorage st).
Proof.
  cbv zeta. split_and!.
  - destruct op; run_handler;
      destruct (truthy (authEmail (dom st))), (truthy (authPassword (dom st)));
      simpl; done.
  - destruct op; run_handler;
      destruct (truthy (authEmail (dom st))), (truthy (authPassword (dom st)));
      simpl; try (intros [?|?]; done);
      destruct (network env _) as [|res] eqn:Hnet; simpl;
      try (intros [?|?]; done);
      destruct (json res) as [j|]; simpl; try (intros [?|?]; done);
      destruct (ok res) eqn:Hok; simpl; try (intros [?|?]; done);
      intros _; by exists res.
  - intros res Hnet Hok. revert Hnet.
    destruct op; run_handler;
      destruct (truthy (authEmail (dom st))), (truthy (authPassword (dom st)));
      simpl; try done; intros ->; simpl;
      destruct (json res) as [j|]; simpl; try done; by rewrite Hok.
Qed.

Lemma auth_updates_credential_only_on_ok_witness :
  truthy "" && truthy "secret" = false
  ∧ state_after loginUser offline (type_credentials "" "secret" initial_state)
    = type_credentials "" "secret" initial_state.
Proof.
  split; [reflexivity|].
  apply (auth_updates_credential_only_on_ok Login offline
           (type_credentials "" "secret" initial_state)).
  reflexivity.
Defined.

(** ** Failed stats fetches *)

(** A transport failure, and an answer whose body is not JSON, reject
    [fetchAndRender] before it writes anything. *)
Lemma fetchAndRender_rejected_keeps_state filters env st :
  let req := GET (mkUrl STATS_URL
                    (match stats_params (dom st) filters with
                     | [] => None
                     | _ => Some (stats_params (dom st) filters)
                     end)) in
  network env req = NetworkFailure
  ∨ (∃ res, network env req = Respond res ∧ json res = None) →
  fetchAndRender filters env st = (Rejected, st, [Fetch req]).
Proof.
  cbv zeta. intros [Hnet|(res & Hnet & Hjson)]; run_handler.
  - by rewrite Hnet.
  - rewrite Hnet. simpl. by rewrite Hjson.
Qed.

(** C1 (what the code does). A stats request answered with a status that is
    not ok and a JSON body is rendered like any other answer: on a page
    showing two rows, [currentData] becomes the error object and the table
    data and the table body are emptied. *)
Theorem failed_stats_fetch_with_json_body_overwrites :
  let st := loaded [row1; row2] in
  let env := backend [] (error_response "Internal Server Error") in
  let st' := state_after (fetchAndRender no_filters) env st in
  network env (GET (mkUrl STATS_URL None))
    = Respond (error_response "Internal Server Error")
  ∧ ok (error_response "Internal Server Error") = false
  ∧ fullTableData st = [row1; row2]
  ∧ tbody (dom st) = [tr row1; tr row2]
  ∧ currentData st = Some (stats_of [row1; row2])
  ∧ currentData st'
    = Some (mkObj None (Some "Internal Server Error") None None None None None None)
  ∧ fullTableData st' = []
  ∧ tbody (dom st') = [].
Proof. cbv zeta. split_and!; reflexivity. Qed.

(** ** The table between two fetches *)

Section table_history.
Context `{Collator}.

(** Searching and sorting never make up or change a row: every row of the
    table data was in it before. *)
Lemma interact_keeps_rows i env st r :
  r ∈ fullTableData (state_after (interact i) env st) → r ∈ fullTableData st.
Proof.
  destruct i as [v|k]; cbn [interact].
  - rewrite initSearch_input_state. simpl.
    rewrite list_elem_of_In, filter_In, <-list_elem_of_In. tauto.
  - rewrite initTableSorting_click_state. simpl.
    by rewrite js_sort_Permutation.
Qed.

Lemma interactions_keep_rows h env st r :
  r ∈ fullTableData (state_after (interactions h) env st) →
  r ∈ fullTableData st.
Proof.
  revert st. induction h as [|i h IH]; intros st; [done|].
  rewrite interactions_cons. intros Hr%IH. by eapply interact_keeps_rows.
Qed.
End table_history.

(** C2 (what the code does). Two histories on the same fetched rows that end
    with the same search term (the empty one), with no column sorted and the
    same stored directions, show different tables: after typing a term and
    clearing it again the rows filtered out do not come back, because
    [renderTable] keeps the filtered rows as the table data. *)
Theorem rendered_rows_depend_on_search_history :
  let st := loaded [row1; row2] in
  let h1 := [TypeSearch ""] in
  let h2 := [TypeSearch "north"; TypeSearch ""] in
  let s1 := state_after (interactions h1) offline st in
  let s2 := state_after (interactions h2) offline st in
  current_search h1 = current_search h2
  ∧ current_sort_field h1 = current_sort_field h2
  ∧ sortDirection s1 = sortDirection s2
  ∧ currentData s1 = currentData s2
  ∧ tbody (dom s1) = [tr row1; tr row2]
  ∧ tbody (dom s2) = [tr row1].
Proof. cbv zeta. split_and!; reflexivity. Qed.

(** ** Date presets *)

Lemma fetchAndRender_keeps_dates filters env st :
  startDate (dom (state_after (fetchAndRender filters) env st)) = startDate (dom st)
  ∧ endDate (dom (state_after (fetchAndRender filters) env st)) = endDate (dom st).
Proof.
  run_handler. destruct (network env _) as [|res]; simpl; [done|].
  destruct (json res) as [j|]; simpl; done.
Qed.

Lemma slice_last_nonempty {A} n (l : list A) :
  (0 < n)%nat → l ≠ [] → slice_last n l ≠ [].
Proof.
  intros Hn Hl Hnil. unfold slice_last in Hnil.
  apply (f_equal length) in Hnil. rewrite length_drop in Hnil. simpl in Hnil.
  destruct l; [done|]. simpl in *. lia.
Qed.

(** What a last-n-days preset computes: the first and the last of the [n]
    last entries of the sorted list of the dates of all raw rows, a date
    counted as often as it has rows. *)
Lemma preset_takes_last_entries n rows res env st :
  timeFilter (dom st) = "last-3-days" ∧ n = 3%nat
  ∨ timeFilter (dom st) = "last-5-days" ∧ n = 5%nat →
  network env (GET (mkUrl DATA_URL None)) = Respond res →
  json res = Some (JArr rows) →
  rows ≠ [] →
  let st' := state_after applyFiltersAndRender env st in
  let lastDates := slice_last n (js_sort default_compare (map date rows)) in
  head lastDates = Some (startDate (dom st'))
  ∧ last lastDates = Some (endDate (dom st')).
Proof.
  intros Hpreset Hnet Hjson Hrows. cbv zeta.
  assert (Hsorted : js_sort default_compare (map date rows) ≠ []).
  { intros Hnil. apply Hrows.
    assert (Hm : map date rows = []).
    { apply Permutation_nil. by rewrite <-Hnil, js_sort_Permutation. }
    by destruct rows. }
  assert (Hlast : slice_last n (js_sort default_compare (map date rows)) ≠ []).
  { apply slice_last_nonempty; [|done]. destruct Hpreset as [[_ ->]|[_ ->]]; lia. }
  assert (Hrun : state_after applyFiltersAndRender env st
    = state_after (fetchAndRender no_filters) env
        (with_dom (set_dates
           (default "" (head (slice_last n (js_sort default_compare (map date rows)))))
           (default "" (last (slice_last n (js_sort default_compare (map date rows))))))
           st)).
  { unfold applyFiltersAndRender.
    rewrite (state_after_bind get_state _ env st st st []) by done.
    destruct Hpreset as [[-> ->]|[-> ->]]; simpl;
      (erewrite state_after_bind; [|by unfold fetch; rewrite Hnet]);
      (erewrite state_after_bind; [|by unfold res_json; rewrite Hjson]);
      (erewrite state_after_bind; [|done]);
      (destruct (js_sort default_compare (map date rows)) as [|d ds] eqn:Hs;
       [done|]);
      by erewrite state_after_bind. }
  rewrite Hrun.
  destruct (fetchAndRender_keeps_dates no_filters env
              (with_dom (set_dates
                 (default "" (head (slice_last n (js_sort default_compare (map date rows)))))
                 (default "" (last (slice_last n (js_sort default_compare (map date rows))))))
                 st)) as [-> ->].
  simpl.
  destruct (slice_last n (js_sort default_compare (map date rows)))
    as [|d ds] eqn:Hl; [done|].
  split; [done|].
  destruct (last (d :: ds)) eqn:Hd; [done|].
  by apply last_None in Hd.
Qed.

Lemma preset_takes_last_entries_witness :
  last (slice_last 3 (js_sort default_compare repeated_dates))
  = Some (endDate (dom (state_after applyFiltersAndRender
       (backend (map on_date repeated_dates) (mkResponse true (Some (JObj empty_obj))))
       (select_preset "last-3-days" initial_state)))).
Proof.
  refine (proj2 (preset_takes_last_entries 3 (map on_date repeated_dates)
            (mkResponse true (Some (JArr (map on_date repeated_dates))))
            (backend (map on_date repeated_dates)
               (mkResponse true (Some (JObj empty_obj))))
            (select_preset "last-3-days" initial_state) _ _ _ _)).
  - left. split; reflexivity.
  - reflexivity.
  - reflexivity.
  - discriminate.
Defined.

(** C3. On the four dates of the example the last-3-days preset sets the
    range the specification asks for, 2024-01-02 to 2024-01-05. On raw rows
    with three rows on the last day it does not: the range collapses to that
    day, where the three largest distinct dates start at 2024-01-01. The
    dates are sorted without being made distinct. *)
Theorem preset_range_counts_repeated_dates :
  let answer := mkResponse true (Some (JObj empty_obj)) in
  let st := select_preset "last-3-days" initial_state in
  let good := state_after applyFiltersAndRender
                (backend (map on_date example_dates) answer) st in
  let bad := state_after applyFiltersAndRender
               (backend (map on_date repeated_dates) answer) st in
  (startDate (dom good), endDate (dom good)) = ("2024-01-02", "2024-01-05")
  ∧ preset_range_spec 3 example_dates = Some ("2024-01-02", "2024-01-05")
  ∧ (startDate (dom bad), endDate (dom bad)) = ("2024-01-03", "2024-01-03")
  ∧ preset_range_spec 3 repeated_dates = Some ("2024-01-01", "2024-01-03").
Proof. cbv zeta. split_and!; reflexivity. Qed.

(** * Further properties of the script *)

(** ** The default order of [sort()] *)

Lemma default_compare_total a b : default_compare a b ≤ 0 ∨ default_compare b a ≤ 0.
Proof. apply (localeCompare_total (Collator := code_unit_collator)). Qed.

Lemma default_compare_trans a b c :
  default_compare a b ≤ 0 → default_compare b c ≤ 0 → default_compare a c ≤ 0.
Proof. apply (localeCompare_trans (Collator := code_unit_collator)). Qed.

Lemma default_compare_le a b : default_compare a b ≤ 0 ↔ String.le a b.
Proof.
  unfold default_compare, String.le, String.leb.
  destruct (String.compare a b); simpl; intuition (lia || done).
Qed.

Lemma default_compare_lt a b : default_compare a b < 0 ↔ String.le a b ∧ a ≠ b.
Proof.
  rewrite <-default_compare_le. unfold default_compare.
  destruct (String.compare a b) eqn:E; simpl.
  - apply String.compare_eq_iff in E. intuition lia.
  - split; [intros _|lia]. split; [lia|]. intros ->.
    assert (String.compare b b = Eq) as Hbb; [|congruence].
    clear. induction b as [|c b IH]; simpl; [done|].
    unfold Ascii.compare. by rewrite N.compare_refl.
  - intuition lia.
Qed.

Lemma sorted_strings l : StronglySorted String.le (js_sort default_compare l).
Proof.
  eapply StronglySorted_impl; [intros a b; apply default_compare_le|].
  apply js_sort_sorted; [apply default_compare_total|apply default_compare_trans].
Qed.

Lemma StronglySorted_NoDup_strict (l : list string) :
  StronglySorted String.le l → NoDup l →
  StronglySorted (λ a b, default_compare a b < 0) l.
Proof.
  induction 1 as [|x l Hl IH Hx]; [constructor|].
  rewrite NoDup_cons. intros [Hin Hnd]. constructor; [by apply IH|].
  rewrite Forall_forall in Hx |- *. intros y Hy.
  apply default_compare_lt. split; [by apply Hx|]. by intros ->.
Qed.

(** ** Filling the selects *)

Lemma Set_values_from_spec seen xs x :
  x ∈ Set_values_from seen xs ↔ x ∈ xs ∧ x ∉ seen.
Proof.
  revert seen. induction xs as [|y xs IH]; intros seen; simpl.
  { rewrite elem_of_nil. tauto. }
  case_bool_decide as Hy.
  - rewrite IH, elem_of_cons. split; [tauto|].
    intros [[->|?] ?]; tauto.
  - rewrite !elem_of_cons, IH, elem_of_cons.
    destruct (decide (x = y)) as [->|Hne]; tauto.
Qed.

Lemma Set_values_from_NoDup seen xs : NoDup (Set_values_from seen xs).
Proof.
  revert seen. induction xs as [|y xs IH]; intros seen; simpl; [constructor|].
  case_bool_decide; [done|]. constructor; [|done].
  rewrite Set_values_from_spec, elem_of_cons. tauto.
Qed.

Lemma NoDup_List_filter {A} (f : A → bool) (l : list A) :
  NoDup l → NoDup (List.filter f l).
Proof.
  induction 1 as [|x l Hx Hl IH]; simpl; [constructor|].
  destruct (f x); [|done]. constructor; [|done].
  rewrite list_elem_of_In, filter_In, <-list_elem_of_In. tauto.
Qed.

(** The options of a select, as [initFilters] computes them from a column
    of the raw rows. *)
Lemma select_options_spec (column : list string) :
  let options := js_sort default_compare (List.filter truthy (Set_values column)) in
  StronglySorted (λ a b, default_compare a b < 0) options
  ∧ NoDup options
  ∧ ∀ x, x ∈ options ↔ x ≠ "" ∧ x ∈ column.
Proof.
  cbv zeta.
  assert (Hnd : NoDup (js_sort default_compare
                         (List.filter truthy (Set_values column)))).
  { rewrite js_sort_Permutation. apply NoDup_List_filter, Set_values_from_NoDup. }
  split_and!; [|done|].
  - apply StronglySorted_NoDup_strict; [apply sorted_strings|done].
  - intros x. rewrite js_sort_Permutation, list_elem_of_In, filter_In,
      <-list_elem_of_In. unfold Set_values. rewrite Set_values_from_spec.
    unfold truthy. rewrite negb_true_iff, String.eqb_neq, elem_of_nil. tauto.
Qed.

(** X1. When the raw-data request is answered with an array of rows,
    [initFilters] offers in each select exactly the non-empty values of its
    column, each once, in strictly increasing code-unit order, and leaves
    the state alone. *)
Theorem initFilters_offers_sorted_distinct_values (rows : list Row)
    (res : Response) (env : Env) (st : State) :
  network env (GET (mkUrl DATA_URL None)) = Respond res →
  json res = Some (JArr rows) →
  ∃ regions products,
    initFilters env st
    = (Fulfilled (regions, products), st, [Fetch (GET (mkUrl DATA_URL None))])
    ∧ StronglySorted (λ a b, default_compare a b < 0) regions
    ∧ StronglySorted (λ a b, default_compare a b < 0) products
    ∧ NoDup regions ∧ NoDup products
    ∧ (∀ x, x ∈ regions ↔ x ≠ "" ∧ x ∈ map region rows)
    ∧ (∀ x, x ∈ products ↔ x ≠ "" ∧ x ∈ map product rows).
Proof.
  intros Hnet Hjson.
  destruct (select_options_spec (map region rows)) as (Hr1 & Hr2 & Hr3).
  destruct (select_options_spec (map product rows)) as (Hp1 & Hp2 & Hp3).
  eexists _, _. split_and!; [|exact Hr1|exact Hp1|exact Hr2|exact Hp2|exact Hr3|exact Hp3].
  unfold initFilters, mbind, Js_bind, fetch, res_json. rewrite Hnet. simpl.
  rewrite Hjson. reflexivity.
Qed.

Lemma initFilters_offers_sorted_distinct_values_witness :
  ∃ regions products,
    initFilters (backend [row2; row1; row2] (error_response "")) initial_state
    = (Fulfilled (regions, products), initial_state,
       [Fetch (GET (mkUrl DATA_URL None))])
    ∧ regions = ["North"; "South"] ∧ products = ["A"; "B"].
Proof.
  destruct (initFilters_offers_sorted_distinct_values [row2; row1; row2]
              (mkResponse true (Some (JArr [row2; row1; row2])))
              (backend [row2; row1; row2] (error_response "")) initial_state
              eq_refl eq_refl) as (regions & products & Hrun & _).
  exists regions, products. split; [exact Hrun|].
  vm_compute in Hrun. by injection Hrun as <- <-.
Defined.

(** ** Page load and rendering an answer *)

Ltac run_js :=
  unfold state_after, events_of, completion_of, dispatch, DOMContentLoaded,
    detached, initFilters, themeToggle_click, showAuth_click, closeModal_click,
    scheduleBtn_click, exportData, exportPDF, scheduleEmail, initSearch_input,
    initTableSorting_click, prompt;
  run_handler.

Lemma DOMContentLoaded_run env st :
  completion_of DOMContentLoaded env st = Fulfilled tt
  ∧ state_after DOMContentLoaded env st
    = state_after (fetchAndRender no_filters) env st
  ∧ events_of DOMContentLoaded env st
    = Fetch (GET (mkUrl DATA_URL None))
      :: events_of (fetchAndRender no_filters) env st.
Proof.
  run_js.
  destruct (network env (GET (mkUrl DATA_URL None))) as [|r]; simpl.
  - by destruct (network env _) as [|res]; simpl;
      [|destruct (json res); simpl].
  - destruct (json r) as [[o|rows]|]; simpl;
      by destruct (network env _) as [|res]; simpl;
        [|destruct (json res); simpl].
Qed.

(** X2. On page load the stats request goes out after the raw-data request
    whatever becomes of the latter: a failed or malformed answer to
    [/api/data] does not keep the dashboard from being fetched and drawn,
    and the listener itself never fails. *)
Theorem page_load_fetches_stats_regardless (env : Env) (st : State) :
  completion_of DOMContentLoaded env st = Fulfilled tt
  ∧ state_after DOMContentLoaded env st
    = state_after (fetchAndRender no_filters) env st
  ∧ events_of DOMContentLoaded env st
    = Fetch (GET (mkUrl DATA_URL None))
      :: events_of (fetchAndRender no_filters) env st.
Proof. apply DOMContentLoaded_run. Qed.



(** ** The explicit filter argument *)

(** X4. An explicit [region] or [product] passed to [fetchAndRender]
    replaces the value of the select in the query, and never adds a second
    entry for the key: each of the four keys occurs at most once, [region]
    and [product] are bound to the explicit value when there is a non-empty
    one and to the select value otherwise, and the dates are bound as
    without the argument. *)
Theorem explicit_filters_override_selects (d : Dom) (filters : Filters) :
  let q := stats_params d filters in
  let pick (explicit : option string) (selected : string) :=
    if truthy_opt explicit then explicit else or_null selected in
  NoDup (q.*1)
  ∧ (list_to_map q : gmap string string) !! "region"
    = pick (filters_region filters) (regionFilter d)
  ∧ (list_to_map q : gmap string string) !! "product"
    = pick (filters_product filters) (productFilter d)
  ∧ (list_to_map q : gmap string string) !! "start_date" = or_null (startDate d)
  ∧ (list_to_map q : gmap string string) !! "end_date" = or_null (endDate d).
Proof.
  cbv zeta. rewrite !truthy_or_null.
  destruct filters as [[fr|] [fp|]]; unfold truthy_opt; simpl;
    unfold stats_params, set_if_truthy, append_if_truthy, params_append; simpl;
    repeat match goal with
           | |- context [truthy ?s] => destruct (truthy s) eqn:?; simpl
           end;
    (split_and!; [by apply (bool_decide_unpack _)|done..]).
Qed.

(** ** Presets and manual ranges *)

Lemma events_of_bind {A B} (m : Js A) (f : A → Js B) env st a st1 ev1 :
  m env st = (Fulfilled a, st1, ev1) →
  events_of (m ≫= f) env st = (ev1 ++ events_of (f a) env st1)%list.
Proof.
  intros Hm. unfold events_of, mbind, Js_bind. rewrite Hm.
  by destruct (f a env st1) as [[??]?].
Qed.

(** X5. With the preset [all] a change of any filter control empties both
    date inputs before fetching, so the stats request carries at most
    [region] and [product]; with any other value that is not a last-n-days
    preset the dates stay as the user set them and are sent. *)
Theorem preset_all_clears_the_dates (env : Env) (st : State) :
  timeFilter (dom st) ≠ "last-3-days" →
  timeFilter (dom st) ≠ "last-5-days" →
  let cleared := if (timeFilter (dom st) =? "all")%string
                 then with_dom (set_dates "" "") st else st in
  let st' := state_after applyFiltersAndRender env st in
  state_after applyFiltersAndRender env st
    = state_after (fetchAndRender no_filters) env cleared
  ∧ events_of applyFiltersAndRender env st
    = events_of (fetchAndRender no_filters) env cleared
  ∧ startDate (dom st') = startDate (dom cleared)
  ∧ endDate (dom st') = endDate (dom cleared)
  ∧ (timeFilter (dom st) = "all" →
       startDate (dom st') = "" ∧ endDate (dom st') = ""
       ∧ head (events_of applyFiltersAndRender env st)
         = Some (Fetch (GET (mkUrl STATS_URL
             (match export_params (set_dates "" "" (dom st)) with
              | [] => None
              | ps => Some ps
              end))))).
Proof.
  intros H3 H5. cbv zeta.
  apply String.eqb_neq in H3, H5.
  assert (Hrun : applyFiltersAndRender env st
    = fetchAndRender no_filters env
        (if (timeFilter (dom st) =? "all")%string
         then with_dom (set_dates "" "") st else st)).
  { unfold applyFiltersAndRender at 1. unfold mbind at 1, Js_bind at 1.
    unfold get_state at 1. rewrite H3, H5. simpl.
    destruct (timeFilter (dom st) =? "all")%string; simpl;
      unfold mbind at 1, Js_bind at 1; simpl;
      by destruct (fetchAndRender no_filters env _) as [[??]?]. }
  assert (Hst : state_after applyFiltersAndRender env st
    = state_after (fetchAndRender no_filters) env
        (if (timeFilter (dom st) =? "all")%string
         then with_dom (set_dates "" "") st else st))
    by (unfold state_after; by rewrite Hrun).
  assert (Hev : events_of applyFiltersAndRender env st
    = events_of (fetchAndRender no_filters) env
        (if (timeFilter (dom st) =? "all")%string
         then with_dom (set_dates "" "") st else st))
    by (unfold events_of; by rewrite Hrun).
  rewrite Hst, Hev.
  split_and!; try done; try apply fetchAndRender_keeps_dates.
  intros Hall. rewrite Hall. simpl.
  destruct (fetchAndRender_keeps_dates no_filters env
              (with_dom (set_dates "" "") st)) as [-> ->].
  split_and!; try done.
  run_js. unfold stats_params, export_params, set_if_truthy. simpl.
  unfold append_if_truthy, params_append.
  destruct (truthy (regionFilter (dom st))), (truthy (productFilter (dom st)));
    simpl; destruct (network env _) as [|res]; simpl; try done;
    by destruct (json res).
Qed.

Lemma preset_all_clears_the_dates_witness :
  let st := select_preset "all"
              (set_filters "2024-01-01" "2024-01-31" "North" "" initial_state) in
  startDate (dom (state_after applyFiltersAndRender offline st)) = ""
  ∧ events_of applyFiltersAndRender offline st
    = [Fetch (GET (mkUrl STATS_URL (Some [("region", "North")])))].
Proof.
  cbv zeta.
  destruct (preset_all_clears_the_dates offline
              (select_preset "all"
                 (set_filters "2024-01-01" "2024-01-31" "North" "" initial_state)))
    as (_ & _ & _ & _ & Hall); [discriminate|discriminate|].
  destruct (Hall eq_refl) as (Hs & _ & _).
  split; [exact Hs|reflexivity].
Defined.

(** X6. With a last-n-days preset selected, when the raw-data request
    fails, is answered with something that is not JSON or not an array, or
    returns no rows, the handler stops there: the date inputs and everything
    else stay as they were and no stats request is sent. *)
Theorem preset_without_raw_dates_stops (env : Env) (st : State) :
  timeFilter (dom st) = "last-3-days" ∨ timeFilter (dom st) = "last-5-days" →
  network env (GET (mkUrl DATA_URL None)) = NetworkFailure
  ∨ (∃ res, network env (GET (mkUrl DATA_URL None)) = Respond res
            ∧ (json res = None ∨ (∃ o, json res = Some (JObj o))
               ∨ json res = Some (JArr []))) →
  state_after applyFiltersAndRender env st = st
  ∧ events_of applyFiltersAndRender env st = [Fetch (GET (mkUrl DATA_URL None))].
Proof.
  intros Hpreset Hnet. run_js.
  destruct Hpreset as [-> | ->]; simpl;
    destruct Hnet as [->|(res & -> & [->|[[o ->]| ->]])]; done.
Qed.

Lemma preset_without_raw_dates_stops_witness :
  state_after applyFiltersAndRender (backend [] (error_response ""))
    (select_preset "last-5-days" (loaded [row1; row2]))
  = select_preset "last-5-days" (loaded [row1; row2]).
Proof.
  refine (proj1 (preset_without_raw_dates_stops (backend [] (error_response ""))
            (select_preset "last-5-days" (loaded [row1; row2])) _ _)).
  - right. reflexivity.
  - right. exists (mkResponse true (Some (JArr []))).
    split; [reflexivity|]. right. right. reflexivity.
Defined.

(** X7. The range a last-n-days preset sets lies within the data: both
    ends are dates of raw rows, the start is not after the end, the end is
    the latest date of all rows, and when there are no more than [n] rows
    the start is the earliest date. *)
Theorem preset_range_lies_within_the_data (n : nat) (rows : list Row)
    (res : Response) (env : Env) (st : State) :
  timeFilter (dom st) = "last-3-days" ∧ n = 3%nat
  ∨ timeFilter (dom st) = "last-5-days" ∧ n = 5%nat →
  network env (GET (mkUrl DATA_URL None)) = Respond res →
  json res = Some (JArr rows) →
  rows ≠ [] →
  let st' := state_after applyFiltersAndRender env st in
  startDate (dom st') ∈ map date rows
  ∧ endDate (dom st') ∈ map date rows
  ∧ String.le (startDate (dom st')) (endDate (dom st'))
  ∧ (∀ d, d ∈ map date rows → String.le d (endDate (dom st')))
  ∧ ((length rows ≤ n)%nat →
       ∀ d, d ∈ map date rows → String.le (startDate (dom st')) d).
Proof.
  intros Hpreset Hnet Hjson Hrows. cbv zeta.
  destruct (preset_takes_last_entries n rows res env st Hpreset Hnet Hjson Hrows)
    as [Hhead Hlast].
  set (s := startDate (dom (state_after applyFiltersAndRender env st))) in *.
  set (e := endDate (dom (state_after applyFiltersAndRender env st))) in *.
  pose proof (sorted_strings (map date rows)) as Hsorted.
  pose proof (js_sort_Permutation default_compare (map date rows)) as Hperm.
  set (sorted := js_sort default_compare (map date rows)) in *.
  unfold slice_last in Hhead, Hlast.
  apply head_Some in Hhead as [tl Htl].
  apply last_Some in Hlast as [init Hinit].
  assert (Hsplit : sorted = (take (length sorted - n) sorted ++ init ++ [e])%list)
    by (by rewrite <-Hinit, take_drop).
  assert (Hs : s ∈ sorted).
  { rewrite <-(take_drop (length sorted - n) sorted), Htl.
    rewrite elem_of_app, elem_of_cons. tauto. }
  assert (Hmax : ∀ d, d ∈ sorted → String.le d e).
  { intros d Hd. rewrite Hsplit, app_assoc in Hsorted, Hd.
    apply elem_of_app in Hd as [Hd|Hd].
    - apply (StronglySorted_app_1_elem_of _ _ _ _ _ Hsorted Hd).
      apply list_elem_of_singleton. done.
    - apply list_elem_of_singleton in Hd as ->. done. }
  assert (He : e ∈ sorted).
  { rewrite Hsplit, !elem_of_app, list_elem_of_singleton. tauto. }
  split_and!.
  - by rewrite <-Hperm.
  - by rewrite <-Hperm.
  - by apply Hmax.
  - intros d Hd. apply Hmax. by rewrite Hperm.
  - intros Hlen d Hd. rewrite <-Hperm in Hd.
    assert (length sorted = length rows) as Hl
      by (rewrite <-(length_map date rows); by apply Permutation_length).
    replace (length sorted - n)%nat with 0%nat in Htl by lia.
    rewrite drop_0 in Htl. rewrite Htl in Hsorted, Hd.
    apply StronglySorted_cons in Hsorted as [Hall _].
    apply elem_of_cons in Hd as [->|Hd]; [done|].
    rewrite Forall_forall in Hall. by apply Hall.
Qed.

Lemma preset_range_lies_within_the_data_witness :
  String.le
    (startDate (dom (state_after applyFiltersAndRender
       (backend (map on_date example_dates) (error_response ""))
       (select_preset "last-3-days" initial_state))))
    (endDate (dom (state_after applyFiltersAndRender
       (backend (map on_date example_dates) (error_response ""))
       (select_preset "last-3-days" initial_state)))).
Proof.
  refine (proj1 (proj2 (proj2
    (preset_range_lies_within_the_data 3 (map on_date example_dates)
       (mkResponse true (Some (JArr (map on_date example_dates))))
       (backend (map on_date example_dates) (error_response ""))
       (select_preset "last-3-days" initial_state) _ _ _ _)))).
  - left. split; reflexivity.
  - reflexivity.
  - reflexivity.
  - discriminate.
Defined.

(** ** What holds of the page at any time *)


(** Cards and charts agree with an answer, spelled out. *)
Lemma cards_and_charts_spec data st :
  state_after (updateSummaryCards data;; renderCharts data) offline st = st ↔
  totalSales (dom st) = default 0 (total_sales data)
  ∧ totalRevenue (dom st) = default 0 (total_revenue data)
  ∧ dailySalesChart st
    = Some (mkChart "line" ((default [] (daily_sales data)).*1)
              ((default [] (daily_sales data)).*2) (Some (getTickColor st)))
  ∧ productChart st
    = Some (mkChart "pie" ((default [] (sales_by_product data)).*1)
              ((default [] (sales_by_product data)).*2) None)
  ∧ regionChart st
    = Some (mkChart "bar" ((default [] (sales_by_region data)).*1)
              ((default [] (sales_by_region data)).*2) (Some (getTickColor st))).
Proof.
  destruct st as [c1 c2 c3 cd ftd sd tok ls
                    [sD eD rF pF tF aE aP sT tS tR tb mH dk]].
  run_js. unfold getTickColor. simpl. split.
  - intros Heq. injection Heq as <- <- <- <- <-. done.
  - intros (-> & -> & -> & -> & ->). done.
Qed.




(** [applyFiltersAndRender] does to the state what setting the two date
    inputs and [fetchAndRender] do, if anything. *)
Lemma applyFiltersAndRender_preserves (P : State → Prop) env st :
  (∀ s e st, P st → P (with_dom (set_dates s e) st)) →
  (∀ env st, P st → P (state_after (fetchAndRender no_filters) env st)) →
  P st → P (state_after applyFiltersAndRender env st).
Proof.
  intros Hdates Hfetch Hst. unfold applyFiltersAndRender.
  rewrite (state_after_bind get_state _ env st st st []) by done.
  destruct (_ || _).
  - destruct (network env (GET (mkUrl DATA_URL None))) as [|r] eqn:Hnet.
    { by erewrite state_after_bind_rejected; [|by unfold fetch; rewrite Hnet]. }
    erewrite state_after_bind; [|by unfold fetch; rewrite Hnet].
    destruct (json r) as [[o|rows]|] eqn:Hjson.
    + erewrite state_after_bind; [|by unfold res_json; rewrite Hjson].
      by erewrite state_after_bind_rejected.
    + erewrite state_after_bind; [|by unfold res_json; rewrite Hjson].
      erewrite state_after_bind; [|done].
      destruct (js_sort default_compare (map date rows)); [done|].
      erewrite state_after_bind; [|done].
      by apply Hfetch, Hdates.
    + by erewrite state_after_bind_rejected; [|by unfold res_json; rewrite Hjson].
  - destruct (timeFilter (dom st) =? "all")%string.
    + erewrite state_after_bind; [|done]. by apply Hfetch, Hdates.
    + erewrite state_after_bind; [|done]. by apply Hfetch.
Qed.




(** Case analysis on what the outside world answers and on the guards. *)
Ltac outcomes :=
  repeat (simpl;
          match goal with
          | |- context [network ?env ?r] => destruct (network env r) as [|?]
          | |- context [json ?r] => destruct (json r) as [?|]
          | |- context [ok ?r] => destruct (ok r)
          | |- context [truthy ?s] => destruct (truthy s)
          | |- context [truthy_opt ?s] => destruct (truthy_opt s)
          end);
  simpl.


Lemma state_after_exportPDF env st : state_after exportPDF env st = st.
Proof.
  run_js. destruct (dailySalesChart st), (productChart st), (regionChart st);
    simpl; try done.
  by destruct (network env _).
Qed.


Section sessions.
Context `{Collator}.





End sessions.



(** ** Credentials *)

Section credentials.
Context `{Collator}.

Lemma dispatch_keeps_credentials e env st :
  e ≠ ClickLogin → e ≠ ClickRegister →
  token (state_after (dispatch e) env st) = token st
  ∧ localStorage (state_after (dispatch e) env st) = localStorage st.
Proof.
  intros Hl Hr.
  assert (Hfetch : ∀ env' st', token st' = token st ∧ localStorage st' = localStorage st →
    token (state_after (fetchAndRender no_filters) env' st') = token st
    ∧ localStorage (state_after (fetchAndRender no_filters) env' st') = localStorage st).
  { intros env' st' Hst'. run_js. by outcomes. }
  destruct e as [|c v|value|key| | | | | | | | | | ]; try done.
  - pose proof (DOMContentLoaded_run env st) as (_ & Hst & _).
    simpl. rewrite Hst. by apply Hfetch.
  - simpl.
    rewrite (state_after_bind (modify (with_dom (set_control c v))) _ env st tt
               (with_dom (set_control c v) st) []) by done.
    destruct (is_filter_control c); [|done].
    pose proof (applyFiltersAndRender_preserves
      (λ s, token s = token st ∧ localStorage s = localStorage st)
      env (with_dom (set_control c v) st)) as Hout.
    unfold state_after, detached in Hout |- *.
    destruct (applyFiltersAndRender env _) as [[??]?]. simpl in *.
    apply Hout; [done|exact Hfetch|done].
  - pose proof (state_after_exportPDF env st) as Hpdf.
    cbn [dispatch]. unfold state_after, detached in Hpdf |- *.
    destruct (exportPDF env st) as [[??]?]. simpl in *. by subst.
  - run_js. by outcomes.
  - run_js. by destruct (currentData st).
Qed.

(** X9. Only the log-in and the register button can change the
    credential: through any session without a click on either, the token in
    memory and the whole local storage stay what they were. *)
Theorem only_sign_in_changes_the_credential (session : list (UiEvent * Env))
    (st : State) :
  Forall (λ step, step.1 ≠ ClickLogin ∧ step.1 ≠ ClickRegister) session →
  token (run session st) = token st
  ∧ localStorage (run session st) = localStorage st.
Proof.
  intros Hs. revert st.
  induction Hs as [|[e env] session [Hl Hr] _ IH]; intros st; [done|].
  simpl in *. destruct (IH (state_after (dispatch e) env st)) as [-> ->].
  by apply dispatch_keeps_credentials.
Qed.
End credentials.

Lemma only_sign_in_changes_the_credential_witness :
  token (run [(Loaded, offline); (ClickConfirmSchedule, offline);
              (ClickThemeToggle, offline)]
           (page_load {["dashboard_token" := "abc"]} initial_dom))
  = Some "abc".
Proof.
  refine (proj1 (only_sign_in_changes_the_credential
            [(Loaded, offline); (ClickConfirmSchedule, offline);
             (ClickThemeToggle, offline)]
            (page_load {["dashboard_token" := "abc"]} initial_dom) _)).
  repeat constructor; discriminate.
Defined.

(** X10. A sign-in answered with an ok status and a non-empty token stores
    it: the token is in memory and under [dashboard_token] in local storage,
    a reload of the page finds it again, the modal is closed and the user is
    told; and scheduling right after, with a target address in the field,
    sends that token as the bearer. *)
Theorem sign_in_stores_the_token (op : AuthOp) (res : Response) (j : Json)
    (t : string) (env : Env) (st : State) :
  truthy (authEmail (dom st)) = true →
  truthy (authPassword (dom st)) = true →
  network env (auth_request op st) = Respond res →
  ok res = true →
  json res = Some j →
  data_token (as_obj j) = Some t →
  truthy t = true →
  let st' := state_after (auth_handler op) env st in
  token st' = Some t
  ∧ localStorage st' = <["dashboard_token" := t]> (localStorage st)
  ∧ load_token (localStorage st') = Some t
  ∧ modalHidden (dom st') = true
  ∧ events_of (auth_handler op) env st
    = [Fetch (auth_request op st);
       Alert (match op with
              | Login => "Logged in"
              | Register => "Registered & logged in"
              end)]
  ∧ (truthy (schedTargetEmail (dom st)) = true →
     ∀ env', ∃ body,
       head (events_of scheduleEmail env' st')
       = Some (Fetch (POST SCHEDULE_URL (Some ("Bearer " +:+ t)) body))).
Proof.
  intros He Hp Hnet Hok Hjson Htok Ht. cbv zeta. revert Hnet.
  destruct op; run_js; rewrite He, Hp; simpl; intros ->; simpl;
    rewrite Hjson; simpl; rewrite Hok; simpl; rewrite Htok; simpl;
    (split_and!; try done;
     [unfold load_token; rewrite lookup_insert_eq; unfold or_null; by rewrite Ht
     |intros Htarget env'; rewrite Ht, Htarget; simpl; eexists;
      by outcomes]).
Qed.

Lemma sign_in_stores_the_token_witness :
  let env := backend [] (mkResponse true
               (Some (JObj (mkObj (Some "abc") None None None None None None None)))) in
  let st := type_credentials "a@b.c" "secret" initial_state in
  token (state_after loginUser env st) = Some "abc".
Proof.
  cbv zeta.
  refine (proj1 (sign_in_stores_the_token Login
            (mkResponse true
               (Some (JObj (mkObj (Some "abc") None None None None None None None))))
            (JObj (mkObj (Some "abc") None None None None None None None))
            "abc"
            (backend [] (mkResponse true
               (Some (JObj (mkObj (Some "abc") None None None None None None None)))))
            (type_credentials "a@b.c" "secret" initial_state)
            _ _ _ _ _ _ _)); reflexivity.
Defined.

(** ** What the user is told, what is sent *)



(** X12. [scheduleEmail] sends a request exactly when there is a token and
    a target address, the address being the field's or, when the field is
    empty, the one the user gives at the prompt; the prompt appears only
    with a token and an empty field. The request, if any, is the only one,
    carries the token as bearer and each filter input or [null] when it is
    empty, with frequency weekly. The state changes only by the modal being
    closed, and only when the answer is ok. *)
Theorem scheduleEmail_sends_iff_token_and_target (env : Env) (st : State) :
  let d := dom st in
  let target := if truthy (schedTargetEmail d) then Some (schedTargetEmail d)
                else prompt_answer env in
  let req := POST SCHEDULE_URL (Some ("Bearer " +:+ default "" (token st)))
               (BodySchedule (default "" target) (or_null (regionFilter d))
                  (or_null (productFilter d)) (or_null (startDate d))
                  (or_null (endDate d)) "weekly") in
  let sent := truthy_opt (token st) && truthy_opt target in
  List.filter is_fetch (events_of scheduleEmail env st)
    = (if sent then [Fetch req] else [])
  ∧ (Prompt "Send report to email:" ∈ events_of scheduleEmail env st ↔
     truthy_opt (token st) = true ∧ truthy (schedTargetEmail d) = false)
  ∧ (state_after scheduleEmail env st = st
     ∨ state_after scheduleEmail env st = with_dom (set_modalHidden true) st
       ∧ sent = true
       ∧ ∃ res, network env req = Respond res ∧ ok res = true).
Proof.
  cbv zeta. run_js.
  destruct (truthy_opt (token st)) eqn:Htok; simpl.
  2:{ split; [done|split; [|by left]].
      rewrite list_elem_of_singleton. split; [done|]. by intros [? _]. }
  destruct (truthy (schedTargetEmail (dom st))) eqn:Hfield; simpl;
    rewrite ?Hfield; simpl.
  - destruct (network env _) as [|res] eqn:Hnet; simpl.
    { split; [done|split; [|by left]].
      rewrite list_elem_of_singleton. split; [done|]. by intros [_ ?]. }
    destruct (json res) as [j|]; simpl.
    2:{ split; [done|split; [|by left]].
        rewrite list_elem_of_singleton. split; [done|]. by intros [_ ?]. }
    destruct (ok res) eqn:Hok; simpl.
    + split; [done|split; [|right; split_and!; [done|done|by exists res]]].
      rewrite !elem_of_cons, elem_of_nil. split; [|by intros [_ ?]].
      intros [?|[?|[]]]; done.
    + split; [done|split; [|by left]].
      rewrite !elem_of_cons, elem_of_nil. split; [|by intros [_ ?]].
      intros [?|[?|[]]]; done.
  - destruct (truthy_opt (prompt_answer env)) eqn:Hans; simpl.
    2:{ split; [done|split; [|by left]].
        rewrite !elem_of_cons. split; [done|]. intros _. by left. }
    destruct (network env _) as [|res] eqn:Hnet; simpl.
    { split; [done|split; [|by left]].
      rewrite !elem_of_cons. split; [done|]. intros _. by left. }
    destruct (json res) as [j|]; simpl.
    2:{ split; [done|split; [|by left]].
        rewrite !elem_of_cons. split; [done|]. intros _. by left. }
    destruct (ok res) eqn:Hok; simpl.
    + split; [done|split; [|right; split_and!; [done|done|by exists res]]].
      rewrite !elem_of_cons. split; [done|]. intros _. by left.
    + split; [done|split; [|by left]].
      rewrite !elem_of_cons. split; [done|]. intros _. by left.
Qed.

(** X13. [exportPDF] never changes the state. It offers
    [dashboard_report.pdf] exactly when all three charts exist and the
    request got an answer, whatever the status of that answer; the
    request carries the three charts under their titles and the two totals
    the cards show. *)
Theorem exportPDF_downloads_any_answer (env : Env) (st : State) :
  state_after exportPDF env st = st
  ∧ (Download "dashboard_report.pdf" ∈ events_of exportPDF env st ↔
     ∃ c1 c2 c3 res,
       dailySalesChart st = Some c1 ∧ productChart st = Some c2
       ∧ regionChart st = Some c3
       ∧ network env (POST EXPORT_PDF None
           (BodyReport [("Daily Sales Trend", c1); ("Sales by Product", c2);
                        ("Sales by Region", c3)]
              (totalSales (dom st)) (totalRevenue (dom st))))
         = Respond res).
Proof.
  split; [apply state_after_exportPDF|]. run_js.
  destruct (dailySalesChart st) as [c1|], (productChart st) as [c2|],
    (regionChart st) as [c3|]; simpl;
    try (rewrite list_elem_of_singleton; split;
         [done|by intros (? & ? & ? & ? & ? & ? & ? & ?)]).
  destruct (network env _) as [|res] eqn:Hnet; simpl.
  - rewrite list_elem_of_singleton. split; [done|].
    intros (? & ? & ? & ? & [= <-] & [= <-] & [= <-] & Hr). congruence.
  - rewrite !elem_of_cons. split; [|tauto].
    intros _. by exists c1, c2, c3, res.
Qed.

(** ** Searching, again *)






Lemma filter_all {A} (f : A → bool) (l : list A) :
  (∀ x, f x = true) → List.filter f l = l.
Proof.
  intros Hf. induction l as [|x l IH]; simpl; [done|]. by rewrite Hf, IH.
Qed.



(** X15. A search for the empty term filters nothing: every row matches,
    so the table data stay as they are, and on a page whose table body
    shows the table data nothing changes at all. *)
Theorem empty_search_term_keeps_every_row (env : Env) (st : State) :
  fullTableData (state_after (initSearch_input "") env st) = fullTableData st
  ∧ (tbody (dom st) = map tr (fullTableData st) →
     state_after (initSearch_input "") env st = st).
Proof.
  rewrite initSearch_input_state. cbv zeta. simpl.
  rewrite filter_all.
  2:{ intros row. apply (row_matches_spec ""). exists (JsString (date row)).
      split; [by left|]. simpl. by exists "", (toLowerCase (date row)). }
  split; [done|]. intros Hshown.
  destruct st as [c1 c2 c3 cd ftd sd tok ls
                    [sD eD rF pF tF aE aP sT tS tR tb mH dk]].
  simpl in *. by subst.
Qed.

Lemma empty_search_term_keeps_every_row_witness :
  state_after (initSearch_input "") offline (loaded [row1; row2])
  = loaded [row1; row2].
Proof.
  apply (empty_search_term_keeps_every_row offline (loaded [row1; row2])).
  reflexivity.
Defined.

(** ** Sorting, again *)

Section stable_sort_facts.
Context {A : Type} (cmp : A → A → Z).
Hypothesis cmp_total : ∀ a b, cmp a b ≤ 0 ∨ cmp b a ≤ 0.
Hypothesis cmp_trans : ∀ a b c, cmp a b ≤ 0 → cmp b c ≤ 0 → cmp a c ≤ 0.

Lemma sort_insert_least x l :
  Forall (λ y, cmp x y ≤ 0) l → sort_insert cmp x l = x :: l.
Proof.
  destruct 1 as [|y l Hy _]; simpl; [done|].
  apply Z.leb_le in Hy. by rewrite Hy.
Qed.

(** Filtering commutes with inserting into a sorted list. *)
Lemma filter_sort_insert_sorted (P : A → bool) x l :
  StronglySorted (λ a b, cmp a b ≤ 0) l →
  List.filter P (sort_insert cmp x l)
  = if P x then sort_insert cmp x (List.filter P l) else List.filter P l.
Proof.
  induction 1 as [|y l Hl IH Hy]; simpl.
  { by destruct (P x). }
  destruct (cmp x y <=? 0) eqn:E; simpl.
  - destruct (P x) eqn:Px; [|done].
    rewrite sort_insert_least; [done|].
    apply Z.leb_le in E.
    assert (Hall : Forall (λ z, cmp x z ≤ 0) (y :: l)).
    { constructor; [done|]. eapply Forall_impl; [exact Hy|].
      intros z Hz. by eapply cmp_trans. }
    rewrite Forall_forall in Hall |- *. intros z Hz. apply Hall.
    apply list_elem_of_In. apply list_elem_of_In in Hz.
    change (In z (List.filter P (y :: l))) in Hz.
    apply filter_In in Hz. tauto.
  - rewrite IH. destruct (P x), (P y); simpl; rewrite ?E; done.
Qed.

Lemma filter_js_sort (P : A → bool) l :
  List.filter P (js_sort cmp l) = js_sort cmp (List.filter P l).
Proof.
  induction l as [|x l IH]; simpl; [done|].
  rewrite filter_sort_insert_sorted by (by apply js_sort_sorted).
  rewrite IH. by destruct (P x).
Qed.

(** Two sorted lists with the same elements and, among the elements that
    compare equal, the same order, are the same list. *)
Lemma stable_sorted_unique l1 l2 :
  StronglySorted (λ a b, cmp a b ≤ 0) l1 →
  StronglySorted (λ a b, cmp a b ≤ 0) l2 →
  l1 ≡ₚ l2 →
  (∀ x, List.filter (λ y, (cmp x y <=? 0) && (cmp y x <=? 0)) l1
        = List.filter (λ y, (cmp x y <=? 0) && (cmp y x <=? 0)) l2) →
  l1 = l2.
Proof.
  intros Hs1. revert l2.
  induction Hs1 as [|a l1 Hl1 IH Ha]; intros l2 Hs2 Hperm Hties.
  { symmetry. by apply Permutation_nil. }
  destruct Hs2 as [|b l2 Hl2 Hb].
  { by apply Permutation_nil_r in Hperm. }
  assert (Hrefl : ∀ z, cmp z z ≤ 0) by (intros z; by destruct (cmp_total z z)).
  assert (Hab : cmp a b ≤ 0).
  { assert (b ∈ a :: l1) as Hin by (rewrite Hperm; left).
    apply elem_of_cons in Hin as [->|Hin]; [done|].
    rewrite Forall_forall in Ha. by apply Ha. }
  assert (Hba : cmp b a ≤ 0).
  { assert (a ∈ b :: l2) as Hin by (rewrite <-Hperm; left).
    apply elem_of_cons in Hin as [->|Hin]; [done|].
    rewrite Forall_forall in Hb. by apply Hb. }
  assert (a = b) as <-.
  { pose proof (Hties a) as Ht. simpl in Ht.
    apply Z.leb_le in Hab, Hba. pose proof (Hrefl a) as Haa.
    apply Z.leb_le in Haa. rewrite Haa, Hab, Hba in Ht. simpl in Ht.
    congruence. }
  f_equal. apply IH; [done|by eapply Permutation_cons_inv|].
  intros x. pose proof (Hties x) as Ht. simpl in Ht.
  destruct ((cmp x a <=? 0) && (cmp a x <=? 0)); congruence.
Qed.

(** The stable sort depends on its input only through the elements and
    the order among those that compare equal. *)
Lemma js_sort_ext l1 l2 :
  l1 ≡ₚ l2 →
  (∀ x, List.filter (λ y, (cmp x y <=? 0) && (cmp y x <=? 0)) l1
        = List.filter (λ y, (cmp x y <=? 0) && (cmp y x <=? 0)) l2) →
  js_sort cmp l1 = js_sort cmp l2.
Proof.
  intros Hperm Hties.
  assert (Htie : ∀ x a b,
    (cmp x a <=? 0) && (cmp a x <=? 0) = true →
    (cmp x b <=? 0) && (cmp b x <=? 0) = true → cmp a b ≤ 0).
  { intros x a b [_ Ha%Z.leb_le]%andb_prop [Hb%Z.leb_le _]%andb_prop.
    by eapply cmp_trans. }
  apply stable_sorted_unique.
  - by apply js_sort_sorted.
  - by apply js_sort_sorted.
  - by rewrite !js_sort_Permutation.
  - intros x. rewrite !js_sort_stable by apply Htie. apply Hties.
Qed.
End stable_sort_facts.

Section sorting_again.
Context `{Collator}.

Lemma row_compare_flip key asc a b :
  row_compare key (negb asc) a b = row_compare key asc b a.
Proof. by destruct key, asc. Qed.

(** X16. Searching and sorting commute: a click on a header followed by a
    search gives the same page as the search followed by the click. *)
Theorem search_and_sort_commute (key : Field) (value : string) (env : Env)
    (st : State) :
  state_after (initSearch_input value) env
    (state_after (initTableSorting_click key) env st)
  = state_after (initTableSorting_click key) env
      (state_after (initSearch_input value) env st).
Proof.
  rewrite (initSearch_input_state value env (state_after _ env st)).
  rewrite (initTableSorting_click_state key env (state_after _ env st)).
  rewrite initSearch_input_state, initTableSorting_click_state. cbv zeta. simpl.
  rewrite filter_js_sort;
    [done|apply row_compare_total|apply row_compare_trans].
Qed.

(** X17. Clicking the same header three times in a row gives the page that
    one click gives: the table only ever alternates between the two stable
    orders of its rows, also when several rows have the same value in the
    column. *)
Theorem third_click_repeats_the_first (key : Field) (env : Env) (st : State) :
  state_after (initTableSorting_click key) env
    (state_after (initTableSorting_click key) env
       (state_after (initTableSorting_click key) env st))
  = state_after (initTableSorting_click key) env st.
Proof.
  rewrite (initTableSorting_click_state key env
             (state_after _ env (state_after _ env st))).
  rewrite (initTableSorting_click_state key env (state_after _ env st)).
  rewrite initTableSorting_click_state. cbv zeta. simpl.
  unfold toggled. rewrite !lookup_insert_eq. simpl.
  rewrite !insert_insert_eq, negb_involutive.
  set (asc := negb (default false (sortDirection st !! key_name key))).
  set (rows := fullTableData st).
  assert (Hflip : ∀ l, js_sort (row_compare key (negb asc)) l
                       = js_sort (λ a b, row_compare key asc b a) l).
  { intros l. induction l as [|x l IH]; simpl; [done|]. rewrite IH.
    generalize (js_sort (λ a b, row_compare key asc b a) l). intros l'.
    induction l' as [|y l' IH']; simpl; [done|].
    by rewrite row_compare_flip, IH'. }
  assert (Hthree : js_sort (row_compare key asc)
                     (js_sort (row_compare key (negb asc))
                        (js_sort (row_compare key asc) rows))
                   = js_sort (row_compare key asc) rows).
  { apply js_sort_ext; [apply row_compare_total|apply row_compare_trans| |].
    - by rewrite !js_sort_Permutation.
    - intros x. rewrite Hflip.
      rewrite (js_sort_stable (λ a b, row_compare key asc b a)).
      + apply js_sort_stable.
        intros a b [_ Ha%Z.leb_le]%andb_prop [Hb%Z.leb_le _]%andb_prop.
        by eapply row_compare_trans.
      + intros a b [Ha%Z.leb_le _]%andb_prop [_ Hb%Z.leb_le]%andb_prop.
        by eapply row_compare_trans. }
  by rewrite Hthree.
Qed.
End sorting_again.

(** ** Theme *)

(** X19. On a coherent page the theme toggle is its own inverse: two
    clicks give back the very state. One click flips the dark flag, draws
    the charts of the current answer again (none when there is no answer
    yet) and leaves the table, the inputs, the directions and the
    credential alone. *)
Theorem theme_toggle_twice_restores_the_page (env : Env) (st : State) :
  coherent st →
  let st1 := state_after themeToggle_click env st in
  state_after themeToggle_click env st1 = st
  ∧ dark (dom st1) = negb (dark (dom st))
  ∧ set_dark false (dom st1) = set_dark false (dom st)
  ∧ (fullTableData st1, currentData st1, sortDirection st1, token st1,
     localStorage st1)
    = (fullTableData st, currentData st, sortDirection st, token st,
       localStorage st)
  ∧ (labels <$> dailySalesChart st1, values <$> dailySalesChart st1,
     productChart st1, labels <$> regionChart st1, values <$> regionChart st1)
    = (labels <$> dailySalesChart st, values <$> dailySalesChart st,
       productChart st, labels <$> regionChart st, values <$> regionChart st).
Proof.
  intros [_ _ Hcc _]. cbv zeta.
  destruct (currentData st) as [data|] eqn:Hdata.
  - apply cards_and_charts_spec in Hcc as (Hs & Hr & H1 & H2 & H3).
    destruct st as [c1 c2 c3 cd ftd sd tok ls
                      [sD eD rF pF tF aE aP sT tS tR tb mH dk]].
    unfold getTickColor in *. simpl in *. subst. run_js.
    unfold getTickColor, set_charts, with_dom, set_dark. simpl.
    by destruct dk.
  - destruct Hcc as (H1 & H2 & H3).
    destruct st as [c1 c2 c3 cd ftd sd tok ls
                      [sD eD rF pF tF aE aP sT tS tR tb mH dk]].
    simpl in *. subst. run_js. unfold with_dom, set_dark. simpl.
    by destruct dk.
Qed.

Lemma theme_toggle_twice_restores_the_page_witness :
  state_after themeToggle_click offline
    (state_after themeToggle_click offline (loaded [row1; row2]))
  = loaded [row1; row2].
Proof.
  refine (proj1 (theme_toggle_twice_restores_the_page offline
                   (loaded [row1; row2]) _)).
  split; [reflexivity|reflexivity|reflexivity|].
  intros t Ht. discriminate Ht.
Defined.

(** ** Presets and sign-in, edge cases *)

(** X20. A last-n-days preset counts rows, not days: the range it sets
    runs from the first to the last of the [n] last entries of the sorted
    list of the dates of all raw rows, a date occurring as often as it has
    rows. *)
Theorem preset_range_spans_the_last_n_rows (n : nat) (rows : list Row)
    (res : Response) (env : Env) (st : State) :
  timeFilter (dom st) = "last-3-days" ∧ n = 3%nat
  ∨ timeFilter (dom st) = "last-5-days" ∧ n = 5%nat →
  network env (GET (mkUrl DATA_URL None)) = Respond res →
  json res = Some (JArr rows) →
  rows ≠ [] →
  let st' := state_after applyFiltersAndRender env st in
  let lastDates := slice_last n (js_sort default_compare (map date rows)) in
  head lastDates = Some (startDate (dom st'))
  ∧ last lastDates = Some (endDate (dom st'))
  ∧ length lastDates = (length rows `min` n)%nat.
Proof.
  intros Hpreset Hnet Hjson Hrows. cbv zeta.
  destruct (preset_takes_last_entries n rows res env st Hpreset Hnet Hjson Hrows)
    as [Hhead Hlast].
  split_and!; [done|done|].
  unfold slice_last. rewrite length_drop.
  rewrite (Permutation_length (js_sort_Permutation default_compare (map date rows))).
  rewrite length_map. lia.
Qed.

Lemma preset_range_spans_the_last_n_rows_witness :
  head (slice_last 3 (js_sort default_compare repeated_dates))
  = Some (startDate (dom (state_after applyFiltersAndRender
       (backend (map on_date repeated_dates) (error_response ""))
       (select_preset "last-3-days" initial_state)))).
Proof.
  refine (proj1 (preset_range_spans_the_last_n_rows 3 (map on_date repeated_dates)
            (mkResponse true (Some (JArr (map on_date repeated_dates))))
            (backend (map on_date repeated_dates) (error_response ""))
            (select_preset "last-3-days" initial_state) _ _ _ _)).
  - left. split; reflexivity.
  - reflexivity.
  - reflexivity.
  - discriminate.
Defined.



(** ** Editing the dates by hand *)

Lemma applyFiltersAndRender_without_last_n env st :
  timeFilter (dom st) ≠ "last-3-days" →
  timeFilter (dom st) ≠ "last-5-days" →
  applyFiltersAndRender env st
  = fetchAndRender no_filters env
      (if (timeFilter (dom st) =? "all")%string
       then with_dom (set_dates "" "") st else st).
Proof.
  intros H3%String.eqb_neq H5%String.eqb_neq.
  unfold applyFiltersAndRender at 1. unfold mbind at 1, Js_bind at 1.
  unfold get_state at 1. rewrite H3, H5. simpl.
  destruct (timeFilter (dom st) =? "all")%string; simpl;
    unfold mbind at 1, Js_bind at 1; simpl;
    by destruct (fetchAndRender no_filters env _) as [[??]?].
Qed.

Lemma fetchAndRender_first_event filters env st :
  head (events_of (fetchAndRender filters) env st)
  = Some (Fetch (GET (mkUrl STATS_URL
                        (match stats_params (dom st) filters with
                         | [] => None
                         | _ => Some (stats_params (dom st) filters)
                         end)))).
Proof.
  run_js. destruct (network env _) as [|res]; simpl; [done|].
  by destruct (json res).
Qed.

Lemma Change_filter_control `{Collator} c v env st :
  is_filter_control c = true →
  state_after (dispatch (Change c v)) env st
    = state_after applyFiltersAndRender env (with_dom (set_control c v) st)
  ∧ events_of (dispatch (Change c v)) env st
    = events_of applyFiltersAndRender env (with_dom (set_control c v) st).
Proof.
  intros Hc. unfold state_after, events_of. simpl.
  unfold mbind, Js_bind, modify, detached. simpl. rewrite Hc.
  by destruct (applyFiltersAndRender env _) as [[??]?].
Qed.

(** X22. A date typed by hand survives only under a preset that is
    neither [all] nor a last-n-days one. Under [all] the change of either
    date input empties both inputs again before the request is built; under
    any other value that is not last-n-days the typed date stays in its
    input and is what the stats request carries for it. *)
Theorem hand_typed_dates_need_a_custom_preset `{Collator} (c : Control)
    (v : string) (env : Env) (st : State) :
  c = CStartDate ∨ c = CEndDate →
  let st' := state_after (dispatch (Change c v)) env st in
  (timeFilter (dom st) = "all" →
     startDate (dom st') = "" ∧ endDate (dom st') = "")
  ∧ (timeFilter (dom st) ≠ "all" →
     timeFilter (dom st) ≠ "last-3-days" →
     timeFilter (dom st) ≠ "last-5-days" →
     startDate (dom st') = (if c is CStartDate then v else startDate (dom st))
     ∧ endDate (dom st') = (if c is CEndDate then v else endDate (dom st))
     ∧ ∃ q,
         head (events_of (dispatch (Change c v)) env st)
         = Some (Fetch (GET (mkUrl STATS_URL q)))
         ∧ (list_to_map (default [] q) : gmap string string)
             !! (if c is CStartDate then "start_date" else "end_date")
           = or_null v).
Proof.
  intros Hc. cbv zeta.
  assert (Hf : is_filter_control c = true) by (by destruct Hc as [-> | ->]).
  destruct (Change_filter_control c v env st Hf) as [-> ->].
  assert (Hpreset : timeFilter (dom (with_dom (set_control c v) st))
                    = timeFilter (dom st)) by (by destruct Hc as [-> | ->]).
  split.
  - intros Hall. unfold state_after.
    rewrite applyFiltersAndRender_without_last_n
      by (rewrite Hpreset, Hall; discriminate).
    rewrite Hpreset, Hall. simpl.
    apply (fetchAndRender_keeps_dates no_filters env
             (with_dom (set_dates "" "") (with_dom (set_control c v) st))).
  - intros Hall H3 H5. apply String.eqb_neq in Hall.
    unfold state_after, events_of.
    rewrite applyFiltersAndRender_without_last_n by (by rewrite Hpreset).
    rewrite Hpreset, Hall.
    destruct (fetchAndRender_keeps_dates no_filters env
                (with_dom (set_control c v) st)) as [Hs He].
    unfold state_after in Hs, He. rewrite Hs, He.
    split_and!; [by destruct Hc as [-> | ->]..|].
    eexists. split; [apply fetchAndRender_first_event|].
    rewrite truthy_or_null.
    destruct Hc as [-> | ->]; simpl;
      unfold stats_params, set_if_truthy, append_if_truthy, params_append;
      simpl;
      repeat match goal with
             | |- context [truthy ?s] => destruct (truthy s) eqn:?; simpl
             end; done.
Qed.

Lemma hand_typed_dates_need_a_custom_preset_witness :
  startDate (dom (state_after (dispatch (Change CStartDate "2024-01-02")) offline
                    (select_preset "all" initial_state)))
  = "".
Proof.
  refine (proj1 (proj1 (hand_typed_dates_need_a_custom_preset CStartDate
            "2024-01-02" offline (select_preset "all" initial_state) _) _)).
  - left. reflexivity.
  - reflexivity.
Defined.
